(** * economic_agent: wallet, portfolio and request dispatcher

    A shallow embedding of [economic_agent/schemas.py] and
    [economic_agent/run.py].  Python values are a small dynamically typed
    universe ([pyval]); mutable objects are threaded as explicit state
    through a state-and-exception monad; a raised exception keeps every
    mutation made before it (as [list.append] before a failing [float()]
    does in [Portfolio.record_transaction]).

    Floating point is kept abstract: the model is written over the
    interface [PyFloat] (the operations of Python's [float] that the code
    uses) and every general theorem holds for any implementation of it.
    The instance [binary64] (IEEE 754 doubles, as CPython has them) is used
    to run the model on concrete inputs. *)

From Stdlib Require Import ZArith List String Ascii Bool.
From Stdlib Require Import DecimalString.
From Stdlib Require Import Floats.
Import ListNotations.

Local Open Scope string_scope.
Local Open Scope Z_scope.

(** ** The arithmetic interface *)

(** What the code needs from Python's [float]: the literal [0.0],
    conversion from [int] ([None]: OverflowError), [+], [*], [abs], and the
    two comparisons ([None]: unordered, a NaN operand).  Comparison of a
    float with an int is exact in Python, hence its own operation. *)
Class PyFloat : Type := {
  F : Type;
  fzero : F;
  of_int : Z -> option F;
  fadd : F -> F -> F;
  fmul : F -> F -> F;
  fabs : F -> F;
  fcompare : F -> F -> option comparison;
  fcompare_int : F -> Z -> option comparison
}.

(** ** Exceptions and results *)

Inductive exn_kind : Type :=
| AttributeError | TypeError | ValueError | OverflowError | ValidationError.

Record exn : Type := Exn { exn_class : exn_kind; exn_message : string }.

Inductive result (A : Type) : Type :=
| Ok (a : A)
| Raise (e : exn).
Arguments Ok {A} a.
Arguments Raise {A} e.

Definition rbind {A B} (r : result A) (k : A -> result B) : result B :=
  match r with
  | Ok a => k a
  | Raise e => Raise e
  end.

(** ** Python values *)

Set Warnings "-register-all".

Section Values.
Context {PF : PyFloat}.

Inductive pyval : Type :=
| VNone
| VBool (b : bool)
| VInt (z : Z)
| VFloat (f : F)
| VStr (s : string)
| VList (l : list pyval)
| VDict (d : list (pyval * pyval)).

(** A [dict] keeps its items in insertion order. *)
Definition dict : Type := list (pyval * pyval).

Definition type_name (v : pyval) : string :=
  match v with
  | VNone => "NoneType"
  | VBool _ => "bool"
  | VInt _ => "int"
  | VFloat _ => "float"
  | VStr _ => "str"
  | VList _ => "list"
  | VDict _ => "dict"
  end.

(** *** Numbers: [bool] is a subclass of [int] *)

Inductive number : Type :=
| NInt (z : Z)
| NFloat (f : F).

Definition as_number (v : pyval) : option number :=
  match v with
  | VBool b => Some (NInt (Z.b2z b))
  | VInt z => Some (NInt z)
  | VFloat f => Some (NFloat f)
  | _ => None
  end.

Definition of_number (n : number) : pyval :=
  match n with
  | NInt z => VInt z
  | NFloat f => VFloat f
  end.

(** [float(n)] on a number. *)
Definition num_float (n : number) : result F :=
  match n with
  | NFloat f => Ok f
  | NInt z =>
      match of_int z with
      | Some f => Ok f
      | None => Raise (Exn OverflowError "int too large to convert to float")
      end
  end.

(** [a + b] and [a * b] on numbers: integer arithmetic on two ints, float
    arithmetic (after converting the int operand) otherwise. *)
Definition num_add (a b : number) : result number :=
  match a, b with
  | NInt x, NInt y => Ok (NInt (x + y))
  | _, _ =>
      rbind (num_float a) (fun fa =>
      rbind (num_float b) (fun fb => Ok (NFloat (fadd fa fb))))
  end.

Definition num_mul (a b : number) : result number :=
  match a, b with
  | NInt x, NInt y => Ok (NInt (x * y))
  | _, _ =>
      rbind (num_float a) (fun fa =>
      rbind (num_float b) (fun fb => Ok (NFloat (fmul fa fb))))
  end.

Definition num_abs (n : number) : number :=
  match n with
  | NInt z => NInt (Z.abs z)
  | NFloat f => NFloat (fabs f)
  end.

Definition flip_cmp (c : option comparison) : option comparison :=
  option_map CompOpp c.

Definition num_compare (a b : number) : option comparison :=
  match a, b with
  | NInt x, NInt y => Some (x ?= y)
  | NFloat f, NInt y => fcompare_int f y
  | NInt x, NFloat g => flip_cmp (fcompare_int g x)
  | NFloat f, NFloat g => fcompare f g
  end.

Definition is_cmp (c : comparison) (o : option comparison) : bool :=
  match o, c with
  | Some Lt, Lt | Some Eq, Eq | Some Gt, Gt => true
  | _, _ => false
  end.

Definition num_lt (a b : number) : bool := is_cmp Lt (num_compare a b).
Definition num_eqb (a b : number) : bool := is_cmp Eq (num_compare a b).
Definition num_ge (a b : number) : bool :=
  is_cmp Gt (num_compare a b) || is_cmp Eq (num_compare a b).

(** *** Truth value, as [not v] and [if v:] test it *)

Definition truthy (v : pyval) : bool :=
  match v with
  | VNone => false
  | VBool b => b
  | VInt z => negb (z =? 0)
  | VFloat f => negb (is_cmp Eq (fcompare_int f 0))
  | VStr s => negb (s =? "")%string
  | VList l => match l with [] => false | _ :: _ => true end
  | VDict d => match d with [] => false | _ :: _ => true end
  end.

(** *** Dictionaries *)

(** [a == b] on hashable values, as a dict compares its keys: strings with
    strings, [None] with [None], numbers by value ([1 == 1.0 == True]). *)
Definition key_eqb (a b : pyval) : bool :=
  match a, b with
  | VStr s, VStr t => (s =? t)%string
  | VNone, VNone => true
  | _, _ =>
      match as_number a, as_number b with
      | Some x, Some y => num_eqb x y
      | _, _ => false
      end
  end.

(** Lists and dicts are unhashable: using one as a key raises. *)
Definition hash_check (k : pyval) : result unit :=
  match k with
  | VList _ | VDict _ =>
      Raise (Exn TypeError ("unhashable type: '" ++ type_name k ++ "'"))
  | _ => Ok tt
  end.

Fixpoint dict_get (d : dict) (k : pyval) : option pyval :=
  match d with
  | [] => None
  | (k', v) :: d' => if key_eqb k' k then Some v else dict_get d' k
  end.

(** [d[k] = v]: an existing key keeps its place (and its key object); a new
    key goes last. *)
Fixpoint dict_set (d : dict) (k v : pyval) : dict :=
  match d with
  | [] => [(k, v)]
  | (k', v') :: d' =>
      if key_eqb k' k then (k', v) :: d' else (k', v') :: dict_set d' k v
  end.

Definition dict_mem (d : dict) (k : pyval) : bool :=
  match dict_get d k with Some _ => true | None => false end.

(** A dict literal with string keys, built left to right (a later
    duplicate key overwrites the value in place, as [**] spreading does). *)
Definition mk (items : list (string * pyval)) : dict :=
  fold_left (fun d kv => dict_set d (VStr (fst kv)) (snd kv)) items [].

Definition get_or (d : dict) (k : string) (default : pyval) : pyval :=
  match dict_get d (VStr k) with
  | Some v => v
  | None => default
  end.

(** [v.get(k, default)] on an arbitrary value: only a dict has [get]. *)
Definition py_get (v : pyval) (k : string) (default : pyval) : result pyval :=
  match v with
  | VDict d => Ok (get_or d k default)
  | _ =>
      Raise (Exn AttributeError
               ("'" ++ type_name v ++ "' object has no attribute 'get'"))
  end.

(** [v in [s1, ..., sn]] for a list of string literals. *)
Definition in_strs (v : pyval) (l : list string) : bool :=
  match v with
  | VStr s => existsb (String.eqb s) l
  | _ => false
  end.

(** *** [dict.update(other)] *)

Definition is_cont (a : ascii) : bool :=
  let n := N_of_ascii a in (128 <=? n)%N && (n <? 192)%N.

(** The code points of a UTF-8 string (a lead byte with its continuation
    bytes), which is what iterating a [str] yields. *)
Fixpoint utf8_split (s : string) : string * list string :=
  match s with
  | EmptyString => (EmptyString, [])
  | String a rest =>
      let '(pending, cs) := utf8_split rest in
      if is_cont a then (String a pending, cs)
      else (EmptyString, String a pending :: cs)
  end.

Definition utf8_chars (s : string) : list string := snd (utf8_split s).

Definition nat_str (n : nat) : string :=
  NilEmpty.string_of_uint (Nat.to_uint n).

(** The items a value yields when iterated; [None] when it is not
    iterable.  A dict iterates over its keys. *)
Definition py_iter (v : pyval) : option (list pyval) :=
  match v with
  | VStr s => Some (map VStr (utf8_chars s))
  | VList l => Some l
  | VDict d => Some (map fst d)
  | _ => None
  end.

(** Element [i] of an update sequence must itself be a sequence of exactly
    two items, the key and the value. *)
Definition update_pair (i : nat) (e : pyval) : result (pyval * pyval) :=
  match py_iter e with
  | None =>
      Raise (Exn TypeError
               ("cannot convert dictionary update sequence element #"
                  ++ nat_str i ++ " to a sequence"))
  | Some [k; v] => Ok (k, v)
  | Some l =>
      Raise (Exn ValueError
               ("dictionary update sequence element #" ++ nat_str i
                  ++ " has length " ++ nat_str (List.length l)
                  ++ "; 2 is required"))
  end.

(** Items are stored one by one: those before a bad element stay stored. *)
Fixpoint update_seq (i : nat) (l : list pyval) (d : dict) : result unit * dict :=
  match l with
  | [] => (Ok tt, d)
  | e :: l' =>
      match update_pair i e with
      | Raise x => (Raise x, d)
      | Ok (k, v) =>
          match hash_check k with
          | Raise x => (Raise x, d)
          | Ok _ => update_seq (S i) l' (dict_set d k v)
          end
      end
  end.

Definition dict_update (d : dict) (other : pyval) : result unit * dict :=
  match other with
  | VDict o => (Ok tt, fold_left (fun acc kv => dict_set acc (fst kv) (snd kv)) o d)
  | _ =>
      match py_iter other with
      | Some l => update_seq 0 l d
      | None =>
          (Raise (Exn TypeError
                    ("'" ++ type_name other ++ "' object is not iterable")), d)
      end
  end.

(** *** Operators *)

(** [v < n] and [abs(v)]: the code only compares with a number on the
    right (the literal [0], or the result of [abs]). *)
Definition py_lt_num (v : pyval) (n : number) : result bool :=
  match as_number v with
  | Some a => Ok (num_lt a n)
  | None =>
      Raise (Exn TypeError
               ("'<' not supported between instances of '" ++ type_name v
                  ++ "' and '" ++ type_name (of_number n) ++ "'"))
  end.

Definition py_abs (v : pyval) : result number :=
  match as_number v with
  | Some a => Ok (num_abs a)
  | None =>
      Raise (Exn TypeError
               ("bad operand type for abs(): '" ++ type_name v ++ "'"))
  end.

Definition dq : string := String (ascii_of_nat 34) EmptyString.

(** [v + n] with a number on the right ([current + delta]) and [n + v] with
    a number on the left (the running total of [sum]). *)
Definition py_add_num (v : pyval) (n : number) : result number :=
  match as_number v with
  | Some a => num_add a n
  | None =>
      let tn := type_name (of_number n) in
      Raise (Exn TypeError
               match v with
               | VStr _ =>
                   "can only concatenate str (not " ++ dq ++ tn ++ dq ++ ") to str"
               | VList _ =>
                   "can only concatenate list (not " ++ dq ++ tn ++ dq ++ ") to list"
               | _ =>
                   "unsupported operand type(s) for +: '" ++ type_name v
                     ++ "' and '" ++ tn ++ "'"
               end)
  end.

Definition num_add_py (n : number) (v : pyval) : result number :=
  match as_number v with
  | Some b => num_add n b
  | None =>
      Raise (Exn TypeError
               ("unsupported operand type(s) for +: '" ++ type_name (of_number n)
                  ++ "' and '" ++ type_name v ++ "'"))
  end.

Fixpoint str_repeat (s : string) (n : nat) : string :=
  match n with
  | O => EmptyString
  | S n' => s ++ str_repeat s n'
  end.

Definition as_int (v : pyval) : option Z :=
  match as_number v with
  | Some (NInt n) => Some n
  | _ => None
  end.

Definition seq_repeat (v : pyval) (n : Z) : option pyval :=
  match v with
  | VStr s => Some (VStr (str_repeat s (Z.to_nat n)))
  | VList l => Some (VList (List.concat (repeat l (Z.to_nat n))))
  | _ => None
  end.

Definition not_int_msg (v : pyval) : exn :=
  Exn TypeError
    ("can't multiply sequence by non-int of type '" ++ type_name v ++ "'").

(** [a * b]: numbers multiply; a [str] or [list] times an int repeats. *)
Definition py_mul (a b : pyval) : result pyval :=
  match as_number a, as_number b with
  | Some x, Some y => rbind (num_mul x y) (fun n => Ok (of_number n))
  | _, _ =>
      match seq_repeat a 0, seq_repeat b 0 with
      | Some _, _ =>
          match as_int b with
          | Some n => match seq_repeat a n with Some r => Ok r | None => Raise (not_int_msg b) end
          | None => Raise (not_int_msg b)
          end
      | None, Some _ =>
          match as_int a with
          | Some n => match seq_repeat b n with Some r => Ok r | None => Raise (not_int_msg a) end
          | None => Raise (not_int_msg a)
          end
      | None, None =>
          Raise (Exn TypeError
                   ("unsupported operand type(s) for *: '" ++ type_name a
                      ++ "' and '" ++ type_name b ++ "'"))
      end
  end.

End Values.

(** ** The host environment

    Behaviour the code takes from Python built-ins and libraries and that
    no statement below depends on: how [str()] and [repr()] print a value
    (inside f-strings and exception messages), how [float()] reads a string
    ([None]: ValueError), the identifier drawn by the [n]-th [uuid.uuid4()],
    and the key (in hex) and address of the [n]-th [Account.create()], both
    non-empty strings. *)
Class Host {PF : PyFloat} : Type := {
  py_str : pyval -> string;
  py_repr : pyval -> string;
  float_of_str : string -> option F;
  uuid4 : nat -> string;
  account_create : nat -> string * string;
  account_key_nonempty : forall n, fst (account_create n) <> EmptyString;
  account_address_nonempty : forall n, snd (account_create n) <> EmptyString
}.

(** ** State and exceptions *)

(** A computation over a mutable object of type [S]: it returns a value or
    raises, and in both cases leaves the object as mutated so far. *)
Definition M (S A : Type) : Type := S -> result A * S.

Definition ret {S A} (a : A) : M S A := fun s => (Ok a, s).

Definition lift {S A} (r : result A) : M S A := fun s => (r, s).

Definition bind {S A B} (c : M S A) (k : A -> M S B) : M S B :=
  fun s =>
    match c s with
    | (Ok a, s') => k a s'
    | (Raise e, s') => (Raise e, s')
    end.

Definition get {S} : M S S := fun s => (Ok s, s).

Definition put {S} (s : S) : M S unit := fun _ => (Ok tt, s).

Declare Scope py_scope.
Delimit Scope py_scope with py.
Notation "x <- c ;; k" := (bind c (fun x => k))
  (at level 61, c at next level, right associativity) : py_scope.
Notation "c ;; k" := (bind c (fun _ => k))
  (at level 61, right associativity) : py_scope.
Notation "'let?' x := c 'in' k" := (rbind c (fun x => k))
  (at level 61, x name, c at next level, right associativity).

(** The next draw of the process's entropy (ids and keys). *)
Definition draw : M nat nat := fun n => (Ok n, S n).

Definition opt_str {PF : PyFloat} (o : option string) : pyval :=
  match o with
  | Some s => VStr s
  | None => VNone
  end.

(** ** schemas.py *)

Module AgentWallet.
Section AgentWallet.
Context {PF : PyFloat} {HO : Host}.

Record t : Type := {
  chain : string;
  address : option string;
  private_key : option string
}.

(** [AgentWallet(chain=c)]. *)
Definition new (c : string) : t :=
  {| chain := c; address := None; private_key := None |}.

Definition ensure_valid_wallet (self : t) : M nat t :=
  (if negb (truthy (opt_str (private_key self))) then
     n <- draw ;;
     ret {| chain := chain self;
            address := Some (snd (account_create n));
            private_key := Some (fst (account_create n)) |}
   else ret self)%py.

(** Format a transaction for the Ethereum chain. *)
Definition format_transaction (self : t) (tx_data : pyval) : result dict :=
  let? to := py_get tx_data "to" VNone in
  let? value := py_get tx_data "value" (VInt 0) in
  let? data := py_get tx_data "data" (VStr "0x") in
  let? nonce := py_get tx_data "nonce" (VInt 0) in
  let? gas := py_get tx_data "gas" (VInt 21000) in
  let? max_fee := py_get tx_data "maxFeePerGas" (VInt 20000000000) in
  let? max_priority := py_get tx_data "maxPriorityFeePerGas" (VInt 1500000000) in
  Ok (mk [("from", opt_str (address self));
          ("to", to);
          ("value", value);
          ("data", data);
          ("chainId", VInt 1);
          ("nonce", nonce);
          ("gas", gas);
          ("maxFeePerGas", max_fee);
          ("maxPriorityFeePerGas", max_priority)]).

(** Format and "sign" an Ethereum transaction. *)
Definition sign_transaction (self : t) (tx_data : pyval) : result dict :=
  let? formatted_tx := format_transaction self tx_data in
  Ok (mk [("signed", VBool true);
          ("chain", VStr (chain self));
          ("address", opt_str (address self));
          ("tx_data", VDict formatted_tx);
          ("network", VStr "ethereum");
          ("chainId", VInt 1);
          ("status", VStr "signed")]).

Definition model_dump (self : t) : pyval :=
  VDict (mk [("chain", VStr (chain self));
             ("address", opt_str (address self));
             ("private_key", opt_str (private_key self))]).

End AgentWallet.
End AgentWallet.

Module Portfolio.
Section Portfolio.
Context {PF : PyFloat} {HO : Host}.

Record t : Type := {
  token_balances : dict;
  transaction_history : list pyval
}.

Definition set_token_balances (d : dict) (self : t) : t :=
  {| token_balances := d; transaction_history := transaction_history self |}.

Definition append_history (tx : pyval) (self : t) : t :=
  {| token_balances := token_balances self;
     transaction_history := transaction_history self ++ [tx] |}.

(** [float(v)]. *)
Definition py_float (v : pyval) : result F :=
  match as_number v, v with
  | Some n, _ => num_float n
  | None, VStr s =>
      match float_of_str s with
      | Some f => Ok f
      | None =>
          Raise (Exn ValueError
                   ("could not convert string to float: " ++ py_repr v))
      end
  | None, _ =>
      Raise (Exn TypeError
               ("float() argument must be a string or a real number, not '"
                  ++ type_name v ++ "'"))
  end.

Definition get_token_balance (self : t) (symbol : pyval) : result pyval :=
  let? _ := hash_check symbol in
  Ok (match dict_get (token_balances self) symbol with
      | Some v => v
      | None => VFloat fzero
      end).

Definition adjust_token_balance (symbol : pyval) (delta : F) : M t unit :=
  (self <- get ;;
   current <- lift (get_token_balance self symbol) ;;
   updated <- lift (py_add_num current (NFloat delta)) ;;
   put (set_token_balances
          (dict_set (token_balances self) symbol (of_number updated)) self))%py.

Definition record_transaction (tx : dict) : M t unit :=
  (self <- get ;;
   put (append_history (VDict tx) self) ;;
   if dict_mem tx (VStr "symbol") && dict_mem tx (VStr "amount") then
     delta <- lift (py_float (get_or tx "amount" VNone)) ;;
     adjust_token_balance (get_or tx "symbol" VNone) delta
   else ret tt)%py.

(** The built-in [sum] over a generator: the total starts at the int [0]
    and takes the items left to right; an item that raises, or that cannot
    be added, ends the sum there. *)
Definition py_sum (items : list (result pyval)) : result number :=
  fold_left
    (fun acc item =>
       let? total := acc in
       let? x := item in
       num_add_py total x)
    items (Ok (NInt 0)).

Definition get_total_value
    (self : t) (price_feeds : option pyval) (default_price : option pyval)
  : result pyval :=
  let price_feeds := match price_feeds with Some v => v | None => VNone end in
  let default_price :=
    match default_price with Some v => v | None => VFloat fzero end in
  let price_feeds := if negb (truthy price_feeds) then VDict [] else price_feeds in
  let? total :=
    py_sum
      (map (fun '(symbol, balance) =>
              let? price :=
                match price_feeds with
                | VDict d =>
                    Ok (match dict_get d symbol with
                        | Some v => v
                        | None => default_price
                        end)
                | _ =>
                    Raise (Exn AttributeError
                             ("'" ++ type_name price_feeds
                                ++ "' object has no attribute 'get'"))
                end in
              py_mul balance price)
           (token_balances self)) in
  Ok (of_number total).

Definition model_dump (self : t) : pyval :=
  VDict (mk [("token_balances", VDict (token_balances self));
             ("transaction_history", VList (transaction_history self))]).

End Portfolio.
End Portfolio.

Module EconomicAgent.
Section EconomicAgent.
Context {PF : PyFloat} {HO : Host}.

(** Economic agent that manages wallet, holdings, and rewards. *)
Record t : Type := {
  id : string;
  rewards : list F;
  total_reward : F;
  wallet : option AgentWallet.t;
  holdings : option Portfolio.t
}.

Definition set_holdings (p : option Portfolio.t) (self : t) : t :=
  {| id := id self; rewards := rewards self; total_reward := total_reward self;
     wallet := wallet self; holdings := p |}.

(** [EconomicAgent(generate_wallet=..., initial_holdings=...)].  The
    holdings given here are a validated [Dict[str, float]]; they become the
    balances as they are, with an empty history. *)
Definition init (generate_wallet : bool) (initial_holdings : option (list (string * F)))
  : M nat t :=
  (n <- draw ;;
   let self := {| id := uuid4 n; rewards := []; total_reward := fzero;
                  wallet := None; holdings := None |} in
   if generate_wallet then
     w <- AgentWallet.ensure_valid_wallet (AgentWallet.new "ethereum") ;;
     let balances :=
       match initial_holdings with
       | Some d => mk (map (fun kv => (fst kv, VFloat (snd kv))) d)
       | None => []
       end in
     ret {| id := id self; rewards := rewards self;
            total_reward := total_reward self;
            wallet := Some w;
            holdings := Some {| Portfolio.token_balances := balances;
                                Portfolio.transaction_history := [] |} |}
   else ret self)%py.

(** Add a reward to the agent. *)
Definition add_reward (reward : pyval) : M t unit :=
  (r <- lift (Portfolio.py_float reward) ;;
   self <- get ;;
   put {| id := id self; rewards := rewards self ++ [r];
          total_reward := fadd (total_reward self) r;
          wallet := wallet self; holdings := holdings self |})%py.

(** Record a transaction in the agent's holdings. *)
Definition add_transaction (tx : dict) : M t unit :=
  fun self =>
    match holdings self with
    | None => (Ok tt, self)
    | Some p =>
        let '(r, p') := Portfolio.record_transaction tx p in
        (r, set_holdings (Some p') self)
    end.

(** Get balance of a specific token. *)
Definition get_token_balance (self : t) (symbol : pyval) : result pyval :=
  match holdings self with
  | None => Ok (VFloat fzero)
  | Some p => Portfolio.get_token_balance p symbol
  end.

(** Get total portfolio value. *)
Definition get_portfolio_value (self : t) (price_feeds default_price : pyval)
  : result pyval :=
  match holdings self with
  | None => Ok (VFloat fzero)
  | Some p => Portfolio.get_total_value p (Some price_feeds) (Some default_price)
  end.

(** Sign a transaction with the agent's wallet. *)
Definition sign_transaction (self : t) (tx_data : pyval) : result dict :=
  match wallet self with
  | None => Ok []
  | Some w => AgentWallet.sign_transaction w tx_data
  end.

End EconomicAgent.
End EconomicAgent.

(** ** run.py *)

(** The deployment object of the hosting SDK; the code stores it and never
    looks inside. *)
Inductive AgentDeployment {PF : PyFloat} : Type :=
| Deployment (config : pyval).

Module EconomicAgentModule.
Section EconomicAgentModule.
Context {PF : PyFloat} {HO : Host}.

(** [agent] is [None] only where [not self.agent] would hold. *)
Record t : Type := {
  deployment : AgentDeployment;
  consumer_id : string;
  agent : option EconomicAgent.t
}.

Definition set_agent (a : EconomicAgent.t) (self : t) : t :=
  {| deployment := deployment self; consumer_id := consumer_id self;
     agent := Some a |}.

Definition init (d : AgentDeployment) (c : string) : M nat t :=
  (a <- EconomicAgent.init true None ;;
   ret {| deployment := d; consumer_id := c; agent := Some a |})%py.

Definition no_attribute {A} (attr : string) : result A :=
  Raise (Exn AttributeError
           ("'NoneType' object has no attribute '" ++ attr ++ "'")).

(** [self.agent.<attr>]: fails on a missing agent as on [None]. *)
Definition the_agent (attr : string) : M t EconomicAgent.t :=
  fun self =>
    match agent self with
    | Some a => (Ok a, self)
    | None => (no_attribute attr, self)
    end.

Definition not_initialized : dict :=
  mk [("status", VStr "error");
      ("message", VStr "Agent not initialized. Call create first.")].

(** Create and initialize the economic agent. *)
Definition create (initial_holdings : pyval) : M t dict :=
  ((if truthy initial_holdings then
      a <- the_agent "holdings" ;;
      match EconomicAgent.holdings a with
      | None => lift (no_attribute "token_balances")
      | Some p =>
          let '(r, balances) :=
            dict_update (Portfolio.token_balances p) initial_holdings in
          self <- get ;;
          put (set_agent
                 (EconomicAgent.set_holdings
                    (Some (Portfolio.set_token_balances balances p)) a) self) ;;
          lift r
      end
    else ret tt) ;;
   a <- the_agent "id" ;;
   ret (mk [("status", VStr "success");
            ("agent_id", VStr (EconomicAgent.id a));
            ("wallet", match EconomicAgent.wallet a with
                       | Some w => AgentWallet.model_dump w
                       | None => VNone
                       end);
            ("holdings", match EconomicAgent.holdings a with
                         | Some p => Portfolio.model_dump p
                         | None => VNone
                         end)]))%py.

Definition has_required_keys (d : dict) : bool :=
  forallb (fun k => dict_mem d (VStr k)) ["type"; "symbol"; "amount"].

(** Record a transaction in the agent's holdings. *)
Definition add_transaction (tx : pyval) : M t dict :=
  fun self =>
    match agent self with
    | None => (Ok not_initialized, self)
    | Some a =>
        match tx with
        | VDict d =>
            if negb (truthy tx) || negb (has_required_keys d) then
              (Ok (mk [("status", VStr "error");
                       ("message", VStr "Invalid transaction data - must include type, symbol and amount")]),
               self)
            else if negb (in_strs (get_or d "type" VNone)
                            ["withdraw"; "reward"; "deposit"; "trade"]) then
              (Ok (mk [("status", VStr "error");
                       ("message", VStr "Invalid transaction type - only withdraw and deposit allowed");
                       ("transaction", tx)]),
               self)
            else
              let record :=
                let '(r, a') := EconomicAgent.add_transaction d a in
                (let? _ := r in
                 Ok (mk [("status", VStr "success"); ("transaction", tx)]),
                 set_agent a' self) in
              if in_strs (get_or d "type" VNone) ["withdraw"; "trade"] then
                match py_lt_num (get_or d "amount" (VInt 0)) (NInt 0) with
                | Raise e => (Raise e, self)
                | Ok false => record
                | Ok true =>
                    let symbol := get_or d "symbol" VNone in
                    match
                      (let? amount := py_abs (get_or d "amount" (VInt 0)) in
                       let? current_balance := EconomicAgent.get_token_balance a symbol in
                       let? short := py_lt_num current_balance amount in
                       Ok (short, current_balance, amount))
                    with
                    | Raise e => (Raise e, self)
                    | Ok (true, current_balance, amount) =>
                        (Ok (mk [("status", VStr "error");
                                 ("message",
                                  VStr ("Insufficient " ++ py_str symbol
                                          ++ " balance. Have " ++ py_str current_balance
                                          ++ ", need " ++ py_str (of_number amount)));
                                 ("transaction", tx)]),
                         self)
                    | Ok (false, _, _) => record
                    end
                end
              else record
        | _ =>
            (Ok (mk [("status", VStr "error");
                     ("message", VStr "Invalid transaction data - must include type, symbol and amount")]),
             self)
        end
    end.

(** Get balance of a specific token. *)
Definition get_token_balance (symbol : pyval) : M t dict :=
  fun self =>
    match agent self with
    | None => (Ok not_initialized, self)
    | Some a =>
        (let? balance := EconomicAgent.get_token_balance a symbol in
         Ok (mk [("status", VStr "success"); ("symbol", symbol); ("balance", balance)]),
         self)
    end.

(** Get total portfolio value. *)
Definition get_portfolio_value (price_feeds default_price : pyval) : M t dict :=
  fun self =>
    match agent self with
    | None => (Ok not_initialized, self)
    | Some a =>
        (let? value := EconomicAgent.get_portfolio_value a price_feeds default_price in
         Ok (mk [("status", VStr "success"); ("value", value)]),
         self)
    end.

(** [{"status": "success", **signed_tx}]: the entries of [signed_tx] are
    stored after ["status"], a key they repeat takes their value. *)
Definition spread_success (signed_tx : dict) : dict :=
  fold_left (fun acc kv => dict_set acc (fst kv) (snd kv)) signed_tx
    (mk [("status", VStr "success")]).

Definition sign_failure : dict :=
  mk [("status", VStr "error"); ("message", VStr "Failed to sign transaction")].

(** Sign a transaction with the agent's wallet. *)
Definition sign_transaction (tx_data : pyval) : M t dict :=
  fun self =>
    match agent self with
    | None => (Ok not_initialized, self)
    | Some a =>
        (let? signed_tx := EconomicAgent.sign_transaction a tx_data in
         if negb (truthy (VDict signed_tx)) then Ok sign_failure
         else Ok (spread_success signed_tx),
         self)
    end.

End EconomicAgentModule.
End EconomicAgentModule.

Section Run.
Context {PF : PyFloat} {HO : Host}.

(** The argument of [run] after its first two statements, the schema
    constructors of the SDK and of [InputSchema]: either one of them raised,
    or the request carries a consumer id, a deployment, a function name and
    the function's input data (any value here; the schema admits [None], a
    string, a dict with string keys, or a list of such dicts). *)
Inductive module_run : Type :=
| Rejected (e : exn)
| Accepted (consumer_id : string) (deployment : AgentDeployment)
           (func_name : string) (func_input_data : pyval).

(** [run._agents] and the entropy consumed so far. *)
Record RunState : Type := {
  _agents : list (string * EconomicAgentModule.t);
  entropy : nat
}.

Definition initial_state : RunState := {| _agents := []; entropy := 0 |}.

Fixpoint agents_get (l : list (string * EconomicAgentModule.t)) (key : string)
  : option EconomicAgentModule.t :=
  match l with
  | [] => None
  | (k, m) :: l' => if (k =? key)%string then Some m else agents_get l' key
  end.

Fixpoint agents_set (l : list (string * EconomicAgentModule.t)) (key : string)
    (m : EconomicAgentModule.t) : list (string * EconomicAgentModule.t) :=
  match l with
  | [] => [(key, m)]
  | (k, m') :: l' =>
      if (k =? key)%string then (k, m) :: l' else (k, m') :: agents_set l' key m
  end.

(** *** Attribute lookup on the module object *)

Inductive method : Type :=
| MCreate | MAddTransaction | MGetTokenBalance | MGetPortfolioValue
| MSignTransaction.

(** What [getattr(agent_module, name)] returns: a bound method, or the
    value of one of the instance attributes set by [__init__]. *)
Inductive attribute : Type :=
| BoundMethod (m : method)
| StrAttr (s : string)
| ObjAttr (class_name : string)
| NoneAttr.

(** Names the class defines; every other name raises AttributeError.  The
    attributes every object inherits (all named [__x__]) are outside the
    model, see [plain_name]. *)
Definition getattr (self : EconomicAgentModule.t) (name : string) : result attribute :=
  if (name =? "create")%string then Ok (BoundMethod MCreate)
  else if (name =? "add_transaction")%string then Ok (BoundMethod MAddTransaction)
  else if (name =? "get_token_balance")%string then Ok (BoundMethod MGetTokenBalance)
  else if (name =? "get_portfolio_value")%string then Ok (BoundMethod MGetPortfolioValue)
  else if (name =? "sign_transaction")%string then Ok (BoundMethod MSignTransaction)
  else if (name =? "deployment")%string then Ok (ObjAttr "AgentDeployment")
  else if (name =? "consumer_id")%string then
    Ok (StrAttr (EconomicAgentModule.consumer_id self))
  else if (name =? "agent")%string then
    Ok (match EconomicAgentModule.agent self with
        | Some _ => ObjAttr "EconomicAgent"
        | None => NoneAttr
        end)
  else
    Raise (Exn AttributeError
             ("'EconomicAgentModule' object has no attribute '" ++ name ++ "'")).

Definition plain_name (name : string) : bool := negb (prefix "__" name).

Definition attr_truthy (a : attribute) : bool :=
  match a with
  | BoundMethod _ => true
  | StrAttr s => negb (s =? "")%string
  | ObjAttr _ => true
  | NoneAttr => false
  end.

(** [await method(arg)] with the one positional argument. *)
Definition call (a : attribute) (arg : pyval) : M EconomicAgentModule.t dict :=
  match a with
  | BoundMethod MCreate => EconomicAgentModule.create arg
  | BoundMethod MAddTransaction => EconomicAgentModule.add_transaction arg
  | BoundMethod MGetTokenBalance => EconomicAgentModule.get_token_balance arg
  | BoundMethod MGetPortfolioValue =>
      EconomicAgentModule.get_portfolio_value arg (VFloat fzero)
  | BoundMethod MSignTransaction => EconomicAgentModule.sign_transaction arg
  | StrAttr _ => lift (Raise (Exn TypeError "'str' object is not callable"))
  | ObjAttr c => lift (Raise (Exn TypeError ("'" ++ c ++ "' object is not callable")))
  | NoneAttr => lift (Raise (Exn TypeError "'NoneType' object is not callable"))
  end.

(** The body of [run] from [getattr] to [return result]. *)
Definition dispatch (func_name : string) (func_input_data : pyval)
  : M EconomicAgentModule.t dict :=
  (self <- get ;;
   method <- lift (getattr self func_name) ;;
   if negb (attr_truthy method) then
     ret (mk [("status", VStr "error");
              ("message", VStr ("Invalid function name: " ++ func_name))])
   else
     let func_input := if truthy func_input_data then func_input_data else VDict [] in
     if (func_name =? "create")%string then
       initial_holdings <- lift (py_get func_input "initial_holdings" VNone) ;;
       EconomicAgentModule.create initial_holdings
     else if (func_name =? "add_transaction")%string then
       EconomicAgentModule.add_transaction func_input
     else if (func_name =? "get_token_balance")%string then
       symbol <- lift (py_get func_input "symbol" VNone) ;;
       EconomicAgentModule.get_token_balance symbol
     else if (func_name =? "get_portfolio_value")%string then
       price_feeds <- lift (py_get func_input "price_feeds" VNone) ;;
       default_price <- lift (py_get func_input "default_price" (VFloat fzero)) ;;
       default_price <- lift (Portfolio.py_float default_price) ;;
       EconomicAgentModule.get_portfolio_value price_feeds (VFloat default_price)
     else call method func_input)%py.

Definition error_envelope (e : exn) : dict :=
  mk [("status", VStr "error"); ("message", VStr (exn_message e))].

(** Run the Economic Agent deployment. *)
Definition run (request : module_run) (st : RunState) : dict * RunState :=
  match request with
  | Rejected e => (error_envelope e, st)
  | Accepted agent_key deployment func_name func_input_data =>
      let '(agent_module, st) :=
        match agents_get (_agents st) agent_key with
        | Some m => (Ok m, st)
        | None =>
            let '(r, n) := EconomicAgentModule.init deployment agent_key (entropy st) in
            (r, {| _agents :=
                     match r with
                     | Ok m => agents_set (_agents st) agent_key m
                     | Raise _ => _agents st
                     end;
                   entropy := n |})
        end in
      match agent_module with
      | Raise e => (error_envelope e, st)
      | Ok m =>
          let '(r, m') := dispatch func_name func_input_data m in
          (match r with
           | Ok result => result
           | Raise e => error_envelope e
           end,
           {| _agents := agents_set (_agents st) agent_key m';
              entropy := entropy st |})
      end
  end.

(** The envelope's fields. *)
Definition status (envelope : dict) : option pyval := dict_get envelope (VStr "status").
Definition message (envelope : dict) : option pyval := dict_get envelope (VStr "message").

End Run.

(** ** IEEE 754 doubles *)

(** [float(z)]: round to nearest, ties to even; OverflowError beyond the
    largest double. *)
Definition b64_of_int (z : Z) : option float :=
  match binary_normalize prec emax z 0 false with
  | S754_infinity _ => None
  | sf => Some (SF2Prim sf)
  end.

Definition b64_compare (a b : float) : option comparison :=
  match PrimFloat.compare a b with
  | FEq => Some Eq
  | FLt => Some Lt
  | FGt => Some Gt
  | FNotComparable => None
  end.

(** A double against an int, exactly: [(-1)^s * m * 2^e] against [z]. *)
Definition b64_compare_int (f : float) (z : Z) : option comparison :=
  match Prim2SF f with
  | S754_nan => None
  | S754_infinity s => Some (if s then Lt else Gt)
  | S754_zero _ => Some (0 ?= z)
  | S754_finite s m e =>
      let v := if s then Z.neg m else Z.pos m in
      Some (if 0 <=? e then v * 2 ^ e ?= z else v ?= z * 2 ^ (- e))
  end.

#[export] Instance binary64 : PyFloat := {|
  F := float;
  fzero := 0%float;
  of_int := b64_of_int;
  fadd := PrimFloat.add;
  fmul := PrimFloat.mul;
  fabs := PrimFloat.abs;
  fcompare := b64_compare;
  fcompare_int := b64_compare_int
|}.

(** A host for running examples: strings print as they are, other values
    as their type name; no string reads as a float; ids, keys and addresses
    are numbered. *)
Definition example_host : @Host binary64.
Proof.
  refine {| py_str := fun v => match v with VStr s => s | _ => "<" ++ type_name v ++ ">" end;
            py_repr := fun v => "<" ++ type_name v ++ ">";
            float_of_str := fun _ => None;
            uuid4 := fun n => "agent-" ++ nat_str n;
            account_create := fun n => ("key-" ++ nat_str n, "0x" ++ nat_str n) |};
    intros n; simpl; discriminate.
Defined.

(** ** Vocabulary of the statements *)

Section Vocabulary.
Context {PF : PyFloat} {HO : Host}.

(** A transaction of the data model: a string symbol and a numeric amount
    that [float()] accepts. *)
Definition valid_transaction (tx : dict) : Prop :=
  exists s v n a,
    dict_get tx (VStr "symbol") = Some (VStr s) /\
    dict_get tx (VStr "amount") = Some v /\
    as_number v = Some n /\
    num_float n = Ok a.

(** What a history entry adds to the balance of [symbol]. *)
Definition amount_for (symbol : string) (tx : pyval) : option F :=
  match tx with
  | VDict d =>
      match dict_get d (VStr "symbol"), dict_get d (VStr "amount") with
      | Some sym, Some v =>
          if key_eqb sym (VStr symbol) then
            match as_number v with
            | Some n => match num_float n with Ok a => Some a | Raise _ => None end
            | None => None
            end
          else None
      | _, _ => None
      end
  | _ => None
  end.

(** The sum of [float(amount)] over the recorded entries of [symbol], from
    [0.0], in the order of the history: what the code accumulates. *)
Definition history_sum (symbol : string) (history : list pyval) : F :=
  fold_left
    (fun total tx =>
       match amount_for symbol tx with
       | Some a => fadd total a
       | None => total
       end)
    history fzero.

Definition balances_match (p : Portfolio.t) : Prop :=
  forall s,
    Portfolio.get_token_balance p (VStr s)
    = Ok (VFloat (history_sum s (Portfolio.transaction_history p))).

Fixpoint record_all (txs : list dict) : M Portfolio.t unit :=
  match txs with
  | [] => ret tt
  | tx :: rest => (Portfolio.record_transaction tx ;; record_all rest)%py
  end.

(** *** Validation of a transaction *)

Definition lacks_required_key (d : dict) : bool :=
  existsb (fun k => negb (dict_mem d (VStr k))) ["type"; "symbol"; "amount"].

Definition known_type (d : dict) : bool :=
  in_strs (get_or d "type" VNone) ["withdraw"; "reward"; "deposit"; "trade"].

(** A withdraw or trade of a negative amount whose absolute value exceeds
    the current balance of its symbol. *)
Definition overdraws (a : EconomicAgent.t) (d : dict) : bool :=
  in_strs (get_or d "type" VNone) ["withdraw"; "trade"] &&
  match as_number (get_or d "amount" VNone),
        EconomicAgent.get_token_balance a (get_or d "symbol" VNone) with
  | Some n, Ok balance =>
      num_lt n (NInt 0) &&
      match as_number balance with
      | Some b => num_lt b (num_abs n)
      | None => false
      end
  | _, _ => false
  end.

(** The four ways a transaction fails validation: not a mapping, a
    required key missing, an unknown type, an overdraw. *)
Definition fails_validation (a : EconomicAgent.t) (tx : pyval) : bool :=
  match tx with
  | VDict d => lacks_required_key d || negb (known_type d) || overdraws a d
  | _ => true
  end.

(** *** Valuation *)

(** Balances and prices that are numbers, as the declared
    [Dict[str, float]] has them. *)
Definition typed_dict (items : list (pyval * number)) : dict :=
  map (fun kn => (fst kn, of_number (snd kn))) items.

(** [price_feeds[symbol]] if present, else the default price. *)
Fixpoint price_of (prices : list (pyval * number)) (default_price : number)
    (symbol : pyval) : number :=
  match prices with
  | [] => default_price
  | (k, n) :: rest =>
      if key_eqb k symbol then n else price_of rest default_price symbol
  end.

(** The sum over all symbols of balance times price. *)
Definition value_of (balances prices : list (pyval * number))
    (default_price : number) : result number :=
  fold_left
    (fun acc kb =>
       let? total := acc in
       let? x := num_mul (snd kb) (price_of prices default_price (fst kb)) in
       num_add total x)
    balances (Ok (NInt 0)).

(** *** Signing *)

Definition stated_defaults : list (string * pyval) :=
  [("value", VInt 0); ("data", VStr "0x"); ("chainId", VInt 1);
   ("nonce", VInt 0); ("gas", VInt 21000);
   ("maxFeePerGas", VInt 20000000000);
   ("maxPriorityFeePerGas", VInt 1500000000)].

(** Every field with a default holds the input's value when the input has
    the field, and the default otherwise. *)
Definition takes_input_or_default (tx_data body : dict) : Prop :=
  forall field default,
    In (field, default) stated_defaults ->
    dict_get body (VStr field) = Some (get_or tx_data field default).

(** *** The registry *)

(** A module as [EconomicAgentModule.__init__] builds it: an agent with a
    generated wallet (non-empty address and key) and holdings. *)
Definition module_ok (m : EconomicAgentModule.t) : Prop :=
  exists a w p addr key,
    EconomicAgentModule.agent m = Some a /\
    EconomicAgent.wallet a = Some w /\
    EconomicAgent.holdings a = Some p /\
    AgentWallet.address w = Some addr /\ addr <> EmptyString /\
    AgentWallet.private_key w = Some key /\ key <> EmptyString.

Definition registry_ok (st : RunState) : Prop :=
  forall key m, agents_get (_agents st) key = Some m -> module_ok m.

(** Requests whose function name is not one of the [__x__] attributes. *)
Definition plain_request (request : module_run) : Prop :=
  match request with
  | Rejected _ => True
  | Accepted _ _ func_name _ => plain_name func_name = true
  end.

(** The states the process goes through, from its start. *)
Inductive reachable : RunState -> Prop :=
| reachable_initial : reachable initial_state
| reachable_run (request : module_run) (st : RunState) :
    reachable st -> plain_request request -> reachable (snd (run request st)).

(** The transaction history kept for a caller ([[]] before its first
    request). *)
Definition history_of (st : RunState) (key : string) : list pyval :=
  match agents_get (_agents st) key with
  | Some m =>
      match EconomicAgentModule.agent m with
      | Some a =>
          match EconomicAgent.holdings a with
          | Some p => Portfolio.transaction_history p
          | None => []
          end
      | None => []
      end
  | None => []
  end.

(** The input data of a [create] that seeds nothing or seeds from a
    mapping. *)
Definition create_payload (data : pyval) : bool :=
  match (if truthy data then data else VDict []) with
  | VDict d =>
      match get_or d "initial_holdings" VNone with
      | VNone | VDict _ => true
      | _ => false
      end
  | _ => false
  end.

Fixpoint string_contains (needle s : string) : bool :=
  prefix needle s ||
  match s with
  | EmptyString => false
  | String _ rest => string_contains needle rest
  end.

(** The module [EconomicAgentModule.__init__] builds at entropy [n]. *)
Definition fresh_module (d : AgentDeployment) (key : string) (n : nat)
  : EconomicAgentModule.t :=
  {| EconomicAgentModule.deployment := d;
     EconomicAgentModule.consumer_id := key;
     EconomicAgentModule.agent :=
       Some {| EconomicAgent.id := uuid4 n;
               EconomicAgent.rewards := [];
               EconomicAgent.total_reward := fzero;
               EconomicAgent.wallet :=
                 Some {| AgentWallet.chain := "ethereum";
                         AgentWallet.address := Some (snd (account_create (S n)));
                         AgentWallet.private_key := Some (fst (account_create (S n))) |};
               EconomicAgent.holdings :=
                 Some {| Portfolio.token_balances := [];
                         Portfolio.transaction_history := [] |} |} |}.

(** The module that serves a caller: the registered one, or a fresh one. *)
Definition module_for (st : RunState) (key : string) (d : AgentDeployment)
  : EconomicAgentModule.t :=
  match agents_get (_agents st) key with
  | Some m => m
  | None => fresh_module d key (entropy st)
  end.

(** Balances after [update] with a mapping. *)
Definition seed (initial_holdings : pyval) (balances : dict) : dict :=
  match initial_holdings with
  | VDict d => fold_left (fun acc kv => dict_set acc (fst kv) (snd kv)) d balances
  | _ => balances
  end.

(** The names [getattr] finds on the module object. *)
Definition known_attribute (name : string) : bool :=
  existsb (String.eqb name)
    ["create"; "add_transaction"; "get_token_balance"; "get_portfolio_value";
     "sign_transaction"; "deployment"; "consumer_id"; "agent"].

(** *** Rewards, keys and update sequences *)

(** The sum of the rewards, from [0.0], in the order they were added. *)
Definition rewards_sum (rewards : list F) : F := fold_left fadd rewards fzero.

(** A dict all of whose keys are strings. *)
Definition string_keys (d : dict) : Prop :=
  forall k v, In (k, v) d -> exists s, k = VStr s.

(** The element [[symbol, amount]] of an update sequence, and the items a
    list of such elements stands for. *)
Definition pair_item (kv : string * pyval) : pyval := VList [VStr (fst kv); snd kv].

Definition pair_entry (kv : string * pyval) : pyval * pyval := (VStr (fst kv), snd kv).

(** [h'] is [h], or [h] with one more entry at its end. *)
Definition grown_by_at_most_one (h h' : list pyval) : Prop :=
  h' = h \/ exists tx, h' = (h ++ [tx])%list.

(** What serving a request may do to a module: replace the holdings of its
    agent, the history at most gaining one entry; nothing else. *)
Definition served (m m' : EconomicAgentModule.t) : Prop :=
  exists a p p',
    EconomicAgentModule.agent m = Some a /\
    EconomicAgent.holdings a = Some p /\
    m' = EconomicAgentModule.set_agent (EconomicAgent.set_holdings (Some p') a) m /\
    grown_by_at_most_one (Portfolio.transaction_history p)
      (Portfolio.transaction_history p').

(** *** The claimed sum, and the state after [create] *)

(** [sum(tx["amount"] for tx in history if tx["symbol"] == symbol)]: the
    amounts as they are recorded, added by the built-in [sum]. *)
Definition amounts_sum (symbol : string) (history : list pyval) : result number :=
  Portfolio.py_sum
    (map (fun tx =>
            Ok (match tx with
                | VDict d => get_or d "amount" VNone
                | _ => VNone
                end))
         (filter (fun tx =>
                    match tx with
                    | VDict d => key_eqb (get_or d "symbol" VNone) (VStr symbol)
                    | _ => false
                    end)
                 history)).

(** Every symbol's balance equals ([==]) the sum of its recorded amounts. *)
Definition balance_is_amounts_sum (p : Portfolio.t) : Prop :=
  forall s,
    exists balance b total,
      Portfolio.get_token_balance p (VStr s) = Ok balance /\
      as_number balance = Some b /\
      amounts_sum s (Portfolio.transaction_history p) = Ok total /\
      num_eqb b total = true.

(** The holdings a [create] request leaves, from the holdings it finds:
    the balances after [update] with the requested initial holdings (as far
    as [update] got), the history as it was. *)
Definition holdings_after_create (data : pyval) (p : Portfolio.t) : Portfolio.t :=
  match py_get (if truthy data then data else VDict []) "initial_holdings" VNone with
  | Ok initial_holdings =>
      Portfolio.set_token_balances
        (if truthy initial_holdings
         then snd (dict_update (Portfolio.token_balances p) initial_holdings)
         else Portfolio.token_balances p)
        p
  | Raise _ => p
  end.

(** What a [create] answers: an error envelope, which has no [agent_id],
    or a success envelope carrying [agent_id]. *)
Definition create_envelope (agent_id : string) (envelope : dict) : Prop :=
  (status envelope = Some (VStr "error") /\
   dict_get envelope (VStr "agent_id") = None) \/
  (status envelope = Some (VStr "success") /\
   dict_get envelope (VStr "agent_id") = Some (VStr agent_id)).

End Vocabulary.

(** ** Example inputs *)

#[export] Existing Instance example_host.

Definition sym (s : string) : pyval := VStr s.

Definition example_wallet : AgentWallet.t :=
  {| AgentWallet.chain := "ethereum";
     AgentWallet.address := Some "0x742d35Cc6634C0532925a3b844Bc454e4438f44e";
     AgentWallet.private_key :=
       Some "0000000000000000000000000000000000000000000000000000000000000001" |}.

Definition example_holdings : Portfolio.t :=
  {| Portfolio.token_balances :=
       [(sym "ETH", VFloat 1%float); (sym "NAPTHA", VFloat 100%float);
        (sym "USDC", VFloat 1000%float)];
     Portfolio.transaction_history := [] |}.

Definition example_prices : pyval :=
  VDict [(sym "ETH", VInt 2000); (sym "NAPTHA", VInt 10)].

Definition example_deployment : AgentDeployment := Deployment VNone.

Definition example_empty : Portfolio.t :=
  {| Portfolio.token_balances := []; Portfolio.transaction_history := [] |}.

Definition example_tx (type symbol : string) (amount : float) : dict :=
  [(sym "type", sym type); (sym "symbol", sym symbol); (sym "amount", VFloat amount)].

Definition example_txs : list dict :=
  [example_tx "deposit" "ETH" 2%float;
   example_tx "trade" "NAPTHA" 50%float;
   example_tx "reward" "ETH" 0.5%float].

Definition example_module : EconomicAgentModule.t :=
  fresh_module example_deployment "user-1" 0.

Definition example_agent : EconomicAgent.t :=
  {| EconomicAgent.id := uuid4 0%nat;
     EconomicAgent.rewards := [];
     EconomicAgent.total_reward := fzero;
     EconomicAgent.wallet :=
       Some {| AgentWallet.chain := "ethereum";
               AgentWallet.address := Some (snd (account_create 1%nat));
               AgentWallet.private_key := Some (fst (account_create 1%nat)) |};
     EconomicAgent.holdings := Some example_empty |}.

Definition example_seed : dict :=
  [(sym "ETH", VFloat 1%float); (sym "NAPTHA", VFloat 100%float);
   (sym "USDC", VFloat 1000%float); (sym "WBTC", VFloat 0.5%float)].

Definition example_create : pyval :=
  VDict [(sym "initial_holdings", VDict example_seed)].

(** The state after a first [create] of caller [user-1]. *)
Definition example_state : RunState :=
  snd (run (Accepted "user-1" example_deployment "create" example_create)
         initial_state).

(** The module of caller [user-1] in that state, spelled out. *)
Definition example_seeded_holdings : Portfolio.t :=
  {| Portfolio.token_balances := example_seed;
     Portfolio.transaction_history := [] |}.

Definition example_seeded_agent : EconomicAgent.t :=
  EconomicAgent.set_holdings (Some example_seeded_holdings) example_agent.

Definition example_seeded_module : EconomicAgentModule.t :=
  EconomicAgentModule.set_agent example_seeded_agent example_module.

Definition flt (x : float) : @F binary64 := x.

(** A deposit whose amount is null, and a withdraw whose amount is text. *)
Definition example_null_deposit : dict :=
  [(sym "type", sym "deposit"); (sym "symbol", sym "ETH"); (sym "amount", VNone)].

Definition example_text_withdraw : dict :=
  [(sym "type", sym "withdraw"); (sym "symbol", sym "ETH");
   (sym "amount", VStr "all")].

Definition example_pairs : list (string * pyval) :=
  [("ETH", VFloat 1%float); ("USDC", VFloat 1000%float)].

Definition null_amount_error : exn :=
  Exn TypeError "float() argument must be a string or a real number, not 'NoneType'".

(** A deposit of the int 2^53 + 1, a trade of the int 10^400, and a
    [create] whose initial holdings are the number 5. *)
Definition example_big_deposit : dict :=
  [(sym "type", sym "deposit"); (sym "symbol", sym "ETH");
   (sym "amount", VInt 9007199254740993)].

Definition example_huge_trade : dict :=
  [(sym "type", sym "trade"); (sym "symbol", sym "ETH");
   (sym "amount", VInt (10 ^ 400))].

Definition example_number_create : pyval :=
  VDict [(sym "initial_holdings", VInt 5)].

(** ** Properties of the value model *)

Section ValueFacts.
Context {PF : PyFloat}.

Lemma key_eqb_str_l (s : string) (k : pyval) :
  key_eqb (VStr s) k = true <-> k = VStr s.
Proof.
  destruct k; simpl; try (split; [discriminate | intros E; discriminate E]).
  rewrite String.eqb_eq. split; [intros -> | intros E; injection E as ->]; reflexivity.
Qed.

Lemma key_eqb_str_r (s : string) (k : pyval) :
  key_eqb k (VStr s) = true <-> k = VStr s.
Proof.
  destruct k; simpl; try (split; [discriminate | intros E; discriminate E]).
  rewrite String.eqb_eq. split; [intros -> | intros E; injection E as ->]; reflexivity.
Qed.

Lemma key_eqb_str_refl (s : string) : key_eqb (VStr s) (VStr s) = true.
Proof. apply key_eqb_str_l. reflexivity. Qed.

(** Reading a string key after a store. *)
Lemma dict_get_set_str (d : dict) (k v : pyval) (s : string) :
  dict_get (dict_set d k v) (VStr s)
  = if key_eqb k (VStr s) then Some v else dict_get d (VStr s).
Proof.
  induction d as [| [k' v'] d IH]; simpl.
  - reflexivity.
  - destruct (key_eqb k' k) eqn:Ek; simpl.
    + destruct (key_eqb k' (VStr s)) eqn:Es.
      * apply key_eqb_str_r in Es. subst k'.
        apply key_eqb_str_l in Ek. subst k.
        rewrite key_eqb_str_refl. reflexivity.
      * destruct (key_eqb k (VStr s)) eqn:Eks; [| reflexivity].
        apply key_eqb_str_r in Eks. subst k. congruence.
    + destruct (key_eqb k' (VStr s)) eqn:Es.
      * apply key_eqb_str_r in Es. subst k'.
        destruct (key_eqb k (VStr s)) eqn:Eks; [| reflexivity].
        apply key_eqb_str_r in Eks. subst k.
        rewrite key_eqb_str_refl in Ek. discriminate.
      * apply IH.
Qed.

Lemma dict_get_set_same (d : dict) (s : string) (v : pyval) :
  dict_get (dict_set d (VStr s) v) (VStr s) = Some v.
Proof. rewrite dict_get_set_str, key_eqb_str_refl. reflexivity. Qed.

(** A comparison that says [>=] does not say [<]. *)
Lemma num_ge_not_lt (a b : number) : num_ge a b = true -> num_lt a b = false.
Proof.
  unfold num_ge, num_lt.
  destruct (num_compare a b) as [[| |] |]; simpl; congruence.
Qed.

End ValueFacts.

(** ** The portfolio *)

Section PortfolioFacts.
Context {PF : PyFloat} {HO : Host}.

(** [record_transaction] stores the entry first, whatever happens next. *)
Lemma record_transaction_appends (tx : dict) (p : Portfolio.t) :
  Portfolio.transaction_history (snd (Portfolio.record_transaction tx p))
  = (Portfolio.transaction_history p ++ [VDict tx])%list.
Proof.
  unfold Portfolio.record_transaction, Portfolio.adjust_token_balance,
    bind, get, put, lift, ret; simpl.
  destruct (dict_mem tx (VStr "symbol") && dict_mem tx (VStr "amount")); simpl;
    [| reflexivity].
  destruct (Portfolio.py_float _); simpl; [| reflexivity].
  destruct (Portfolio.get_token_balance _ _); simpl; [| reflexivity].
  destruct (py_add_num _ _); reflexivity.
Qed.

Lemma history_sum_app (s : string) (h : list pyval) (tx : pyval) :
  history_sum s (h ++ [tx])%list
  = match amount_for s tx with
    | Some a => fadd (history_sum s h) a
    | None => history_sum s h
    end.
Proof. unfold history_sum. rewrite fold_left_app. reflexivity. Qed.

(** One valid transaction: the entry is appended and the balance of its
    symbol moves by its amount, from the balance that matched the history. *)
Lemma record_transaction_valid (tx : dict) (p : Portfolio.t) :
  balances_match p ->
  valid_transaction tx ->
  exists p',
    Portfolio.record_transaction tx p = (Ok tt, p') /\
    Portfolio.transaction_history p'
    = (Portfolio.transaction_history p ++ [VDict tx])%list /\
    balances_match p'.
Proof.
  intros Hinv (s & v & n & a & Hs & Hv & Hn & Ha).
  pose proof (Hinv s) as Hbal.
  unfold Portfolio.record_transaction, Portfolio.adjust_token_balance,
    bind, get, put, lift, ret, dict_mem, get_or; simpl.
  rewrite Hs, Hv; simpl.
  assert (Hf : Portfolio.py_float v = Ok a).
  { unfold Portfolio.py_float. rewrite Hn. exact Ha. }
  rewrite Hf; simpl.
  unfold Portfolio.get_token_balance in Hbal |- *; simpl in Hbal |- *.
  injection Hbal as Hbal. rewrite Hbal; simpl.
  eexists. split; [reflexivity |]. split; [reflexivity |].
  intros s'. unfold Portfolio.get_token_balance; simpl.
  rewrite dict_get_set_str, history_sum_app.
  unfold amount_for. rewrite Hs, Hv, Hn, Ha.
  destruct (key_eqb (VStr s) (VStr s')) eqn:E.
  - apply key_eqb_str_l in E. injection E as ->. reflexivity.
  - pose proof (Hinv s') as Hbal'.
    unfold Portfolio.get_token_balance in Hbal'; simpl in Hbal'.
    exact Hbal'.
Qed.

(** C1, as the code has it: starting from a portfolio whose balances are
    the per-symbol sums of [float(amount)] over its history, recording any
    sequence of transactions with a string symbol and a numeric amount that
    [float()] accepts succeeds, appends exactly those entries, and leaves
    every symbol's balance equal to the in-order sum of [float(amount)]
    over the recorded entries of that symbol (0.0 when the symbol was never
    seen). *)
Theorem balances_follow_history (txs : list dict) (p : Portfolio.t) :
  balances_match p ->
  Forall valid_transaction txs ->
  exists p',
    record_all txs p = (Ok tt, p') /\
    Portfolio.transaction_history p'
    = (Portfolio.transaction_history p ++ map VDict txs)%list /\
    forall s,
      Portfolio.get_token_balance p' (VStr s)
      = Ok (VFloat (history_sum s (Portfolio.transaction_history p'))).
Proof.
  revert p. induction txs as [| tx txs IH]; intros p Hinv Hall.
  - exists p. simpl. rewrite app_nil_r. repeat split. exact Hinv.
  - inversion Hall as [| ? ? Htx Hrest]; subst.
    destruct (record_transaction_valid tx p Hinv Htx) as (p1 & Hrec & Hhist & Hinv1).
    destruct (IH p1 Hinv1 Hrest) as (p' & Hall' & Hhist' & Hinv').
    exists p'. split; [| split].
    + simpl. unfold bind. rewrite Hrec. exact Hall'.
    + rewrite Hhist', Hhist, <- app_assoc. reflexivity.
    + exact Hinv'.
Qed.

End PortfolioFacts.

(** ** The dispatcher's [add_transaction] *)

Section TransactionFacts.
Context {PF : PyFloat} {HO : Host}.

Lemma lacks_required_key_spec (d : dict) :
  EconomicAgentModule.has_required_keys d = negb (lacks_required_key d).
Proof.
  unfold EconomicAgentModule.has_required_keys, lacks_required_key; simpl.
  destruct (dict_mem d (VStr "type")), (dict_mem d (VStr "symbol")),
    (dict_mem d (VStr "amount")); reflexivity.
Qed.

Lemma get_or_present (d : dict) (k : string) (x y : pyval) :
  dict_mem d (VStr k) = true -> get_or d k x = get_or d k y.
Proof.
  unfold dict_mem, get_or. destruct (dict_get d (VStr k)); [reflexivity | discriminate].
Qed.

Lemma has_amount (d : dict) :
  lacks_required_key d = false -> dict_mem d (VStr "amount") = true.
Proof.
  unfold lacks_required_key; simpl.
  destruct (dict_mem d (VStr "type")), (dict_mem d (VStr "symbol")),
    (dict_mem d (VStr "amount")); simpl; congruence.
Qed.

Lemma agents_set_same (l : list (string * EconomicAgentModule.t)) (key : string)
    (m : EconomicAgentModule.t) :
  agents_get l key = Some m -> agents_set l key m = l.
Proof.
  induction l as [| [k m'] l IH]; simpl; [discriminate |].
  destruct (k =? key)%string.
  - intros E. injection E as ->. reflexivity.
  - intros E. rewrite (IH E). reflexivity.
Qed.

Lemma agents_get_set (l : list (string * EconomicAgentModule.t)) (key : string)
    (m : EconomicAgentModule.t) :
  agents_get (agents_set l key m) key = Some m.
Proof.
  induction l as [| [k m'] l IH]; simpl.
  - rewrite String.eqb_refl. reflexivity.
  - destruct (k =? key)%string eqn:E; simpl; rewrite E; [reflexivity | exact IH].
Qed.

Lemma dispatch_add_transaction (data : pyval) (m : EconomicAgentModule.t) :
  dispatch "add_transaction" data m
  = EconomicAgentModule.add_transaction (if truthy data then data else VDict []) m.
Proof. reflexivity. Qed.

(** A transaction that fails validation gets an error envelope and leaves
    the module as it was. *)
Lemma add_transaction_rejects (m : EconomicAgentModule.t) (a : EconomicAgent.t)
    (tx : pyval) :
  EconomicAgentModule.agent m = Some a ->
  fails_validation a tx = true ->
  exists envelope msg,
    EconomicAgentModule.add_transaction tx m = (Ok envelope, m) /\
    status envelope = Some (VStr "error") /\
    message envelope = Some (VStr msg) /\
    (forall d, tx = VDict d -> lacks_required_key d = false ->
               dict_get envelope (VStr "transaction") = Some tx).
Proof.
  intros Ha Hfail.
  unfold EconomicAgentModule.add_transaction. rewrite Ha.
  destruct tx as [| b | z | f | s | l | d];
    try (do 2 eexists; split; [reflexivity |];
         split; [reflexivity |]; split; [reflexivity |];
         intros d E; discriminate E).
  rewrite lacks_required_key_spec.
  simpl in Hfail.
  destruct (lacks_required_key d) eqn:Hkeys.
  - rewrite orb_true_r.
    do 2 eexists. split; [reflexivity |].
    split; [reflexivity |]. split; [reflexivity |].
    intros d' E. injection E as <-. congruence.
  - assert (Htruthy : truthy (VDict d) = true).
    { destruct d; [discriminate Hkeys | reflexivity]. }
    rewrite Htruthy. simpl negb. simpl orb.
    unfold known_type in Hfail.
    destruct (in_strs (get_or d "type" VNone)
                ["withdraw"; "reward"; "deposit"; "trade"]) eqn:Hknown.
    + simpl in Hfail. unfold overdraws in Hfail.
      simpl negb. cbv iota.
      destruct (in_strs (get_or d "type" VNone) ["withdraw"; "trade"]);
        [| discriminate Hfail].
      rewrite (get_or_present d "amount" (VInt 0) VNone (has_amount d Hkeys)).
      simpl in Hfail.
      unfold py_lt_num, py_abs.
      destruct (as_number (get_or d "amount" VNone)) as [n |]; [| discriminate Hfail].
      destruct (EconomicAgent.get_token_balance a (get_or d "symbol" VNone))
        as [balance | e]; [| discriminate Hfail].
      apply andb_prop in Hfail. destruct Hfail as [Hneg Hshort].
      rewrite Hneg. simpl rbind.
      destruct (as_number balance) as [b |]; [| discriminate Hshort].
      rewrite Hshort.
      do 2 eexists. split; [reflexivity |].
      split; [reflexivity |]. split; [reflexivity |].
      intros d' E _. reflexivity.
    + simpl negb. cbv iota.
      do 2 eexists. split; [reflexivity |].
      split; [reflexivity |]. split; [reflexivity |].
      intros d' E _. reflexivity.
Qed.

(** C3: an [add_transaction] input that fails validation (not a mapping, a
    required key missing, an unknown type, or an overdrawing withdraw or
    trade) is answered by an error envelope with a message, which carries
    the transaction when the transaction has its three keys; the module,
    hence every balance and the history, is unchanged, and so is the
    registry when the input comes through [run]. *)
Theorem failed_validation_changes_nothing (m : EconomicAgentModule.t)
    (a : EconomicAgent.t) :
  EconomicAgentModule.agent m = Some a ->
  (forall tx,
     fails_validation a tx = true ->
     exists envelope msg,
       EconomicAgentModule.add_transaction tx m = (Ok envelope, m) /\
       status envelope = Some (VStr "error") /\
       message envelope = Some (VStr msg) /\
       (forall d, tx = VDict d -> lacks_required_key d = false ->
                  dict_get envelope (VStr "transaction") = Some tx)) /\
  (forall st key deployment data,
     agents_get (_agents st) key = Some m ->
     fails_validation a (if truthy data then data else VDict []) = true ->
     exists envelope,
       run (Accepted key deployment "add_transaction" data) st = (envelope, st) /\
       status envelope = Some (VStr "error")).
Proof.
  intros Ha. split.
  - intros tx Hfail. exact (add_transaction_rejects m a tx Ha Hfail).
  - intros st key deployment data Hm Hfail.
    destruct (add_transaction_rejects m a _ Ha Hfail)
      as (envelope & msg & Hrun & Hstatus & _).
    exists envelope. split; [| exact Hstatus].
    unfold run. rewrite Hm, dispatch_add_transaction, Hrun.
    rewrite agents_set_same by exact Hm.
    destruct st; reflexivity.
Qed.

Lemma in_strs_known (v : pyval) :
  in_strs v ["withdraw"; "trade"] = true ->
  in_strs v ["withdraw"; "reward"; "deposit"; "trade"] = true.
Proof.
  destruct v; simpl; try discriminate.
  destruct (s =? "withdraw")%string, (s =? "trade")%string; simpl;
    rewrite ?orb_true_r; congruence.
Qed.

(** C4, as the code has it: a withdraw or trade with its three keys, a
    string symbol and a numeric amount [>= 0] that [float()] accepts, on a
    stored balance that is a number [float()] accepts, is recorded without
    any balance check, whatever that balance is: the envelope is a success
    echoing the transaction, the history gains the transaction and the
    balance of the symbol becomes balance plus [float(amount)]. *)
Theorem nonnegative_amount_skips_balance_check
    (m : EconomicAgentModule.t) (a : EconomicAgent.t) (p : Portfolio.t)
    (d : dict) (ty s : string) (v balance : pyval) (n b : number) (fa fb : F) :
  EconomicAgentModule.agent m = Some a ->
  EconomicAgent.holdings a = Some p ->
  dict_get d (VStr "type") = Some (VStr ty) ->
  ty = "withdraw" \/ ty = "trade" ->
  dict_get d (VStr "symbol") = Some (VStr s) ->
  dict_get d (VStr "amount") = Some v ->
  as_number v = Some n ->
  num_ge n (NInt 0) = true ->
  num_float n = Ok fa ->
  Portfolio.get_token_balance p (VStr s) = Ok balance ->
  as_number balance = Some b ->
  num_float b = Ok fb ->
  exists m' a' p',
    EconomicAgentModule.add_transaction (VDict d) m
    = (Ok (mk [("status", VStr "success"); ("transaction", VDict d)]), m') /\
    EconomicAgentModule.agent m' = Some a' /\
    EconomicAgent.holdings a' = Some p' /\
    Portfolio.transaction_history p'
    = (Portfolio.transaction_history p ++ [VDict d])%list /\
    Portfolio.get_token_balance p' (VStr s) = Ok (VFloat (fadd fb fa)).
Proof.
  intros Ha Hp Hty Hkind Hs Hv Hn Hge Hfa Hbal Hb Hfb.
  assert (Htype : in_strs (get_or d "type" VNone) ["withdraw"; "trade"] = true).
  { unfold get_or. rewrite Hty. destruct Hkind; subst ty; reflexivity. }
  unfold EconomicAgentModule.add_transaction. rewrite Ha.
  assert (Htruthy : truthy (VDict d) = true).
  { destruct d; [discriminate Hty | reflexivity]. }
  assert (Hkeys : EconomicAgentModule.has_required_keys d = true).
  { unfold EconomicAgentModule.has_required_keys, dict_mem; simpl.
    rewrite Hty, Hs, Hv. reflexivity. }
  rewrite Htruthy, Hkeys, (in_strs_known _ Htype), Htype.
  simpl negb. simpl orb. cbv iota.
  assert (Hlt : py_lt_num (get_or d "amount" (VInt 0)) (NInt 0) = Ok false).
  { unfold py_lt_num, get_or. rewrite Hv, Hn, (num_ge_not_lt _ _ Hge). reflexivity. }
  rewrite Hlt.
  unfold EconomicAgent.add_transaction. rewrite Hp.
  unfold Portfolio.record_transaction, Portfolio.adjust_token_balance,
    bind, get, put, lift, ret, dict_mem, get_or.
  rewrite Hs, Hv. cbn [andb]. cbv beta iota.
  assert (Hf : Portfolio.py_float v = Ok fa).
  { unfold Portfolio.py_float. rewrite Hn. exact Hfa. }
  rewrite Hf.
  assert (Hbal' :
    Portfolio.get_token_balance (Portfolio.append_history (VDict d) p) (VStr s)
    = Ok balance) by exact Hbal.
  rewrite Hbal'.
  unfold py_add_num. rewrite Hb.
  assert (Hadd : num_add b (NFloat fa) = Ok (NFloat (fadd fb fa))).
  { unfold num_add. destruct b; rewrite Hfb; reflexivity. }
  rewrite Hadd.
  do 3 eexists. split; [reflexivity |].
  split; [reflexivity |]. split; [reflexivity |]. split; [reflexivity |].
  unfold Portfolio.get_token_balance; simpl.
  rewrite dict_get_set_same. reflexivity.
Qed.

End TransactionFacts.

(** ** Valuation and signing *)

Section ValuationFacts.
Context {PF : PyFloat} {HO : Host}.

Lemma as_number_of_number (n : number) : as_number (of_number n) = Some n.
Proof. destruct n; reflexivity. Qed.

Lemma py_mul_numbers (b p : number) :
  py_mul (of_number b) (of_number p) = let? n := num_mul b p in Ok (of_number n).
Proof. unfold py_mul. rewrite !as_number_of_number. reflexivity. Qed.

Lemma dict_get_typed (prices : list (pyval * number)) (default_price : number)
    (symbol : pyval) :
  match dict_get (typed_dict prices) symbol with
  | Some v => v
  | None => of_number default_price
  end = of_number (price_of prices default_price symbol).
Proof.
  induction prices as [| [k n] prices IH]; simpl; [reflexivity |].
  destruct (key_eqb k symbol); [reflexivity | exact IH].
Qed.

Lemma priced_sum_typed (balances prices : list (pyval * number))
    (default_price : number) (acc : result number) :
  fold_left
    (fun acc item =>
       let? total := acc in
       let? x := item in
       num_add_py total x)
    (map (fun '(symbol, balance) =>
            let? price :=
              Ok (match dict_get (typed_dict prices) symbol with
                  | Some v => v
                  | None => of_number default_price
                  end) in
            py_mul balance price)
         (typed_dict balances))
    acc
  = fold_left
      (fun acc kb =>
         let? total := acc in
         let? x := num_mul (snd kb) (price_of prices default_price (fst kb)) in
         num_add total x)
      balances acc.
Proof.
  revert acc. induction balances as [| [k b] balances IH]; intros acc; simpl.
  - reflexivity.
  - rewrite IH. f_equal.
    destruct acc as [total | e]; simpl; [| reflexivity].
    rewrite dict_get_typed, py_mul_numbers.
    destruct (num_mul b (price_of prices default_price k)) as [x | e]; simpl;
      [| reflexivity].
    unfold num_add_py. rewrite as_number_of_number. reflexivity.
Qed.

(** On numeric balances and prices the value is the priced sum. *)
Lemma total_value_typed (balances prices : list (pyval * number))
    (default_price : number) (history : list pyval) :
  Portfolio.get_total_value
    {| Portfolio.token_balances := typed_dict balances;
       Portfolio.transaction_history := history |}
    (Some (VDict (typed_dict prices))) (Some (of_number default_price))
  = let? total := value_of balances prices default_price in Ok (of_number total).
Proof.
  unfold Portfolio.get_total_value, Portfolio.py_sum, value_of; simpl.
  destruct prices as [| kp prices]; simpl typed_dict; cbv iota;
    rewrite <- priced_sum_typed; reflexivity.
Qed.

(** C6, as the code has it: the signed record carries the flag, the chain,
    the address and the formatted body; in the body [from] is the wallet's
    address and [chainId] is 1 whatever the input holds, and [to], [value],
    [data], [nonce], [gas], [maxFeePerGas] and [maxPriorityFeePerGas] are
    the input's values when present and None, 0, "0x", 0, 21000,
    20000000000 and 1500000000 otherwise. *)
Theorem sign_transaction_fields (w : AgentWallet.t) (d : dict) :
  exists body,
    AgentWallet.sign_transaction w (VDict d)
    = Ok (mk [("signed", VBool true);
              ("chain", VStr (AgentWallet.chain w));
              ("address", opt_str (AgentWallet.address w));
              ("tx_data", VDict body);
              ("network", VStr "ethereum");
              ("chainId", VInt 1);
              ("status", VStr "signed")]) /\
    dict_get body (VStr "from") = Some (opt_str (AgentWallet.address w)) /\
    dict_get body (VStr "chainId") = Some (VInt 1) /\
    dict_get body (VStr "to") = Some (get_or d "to" VNone) /\
    dict_get body (VStr "value") = Some (get_or d "value" (VInt 0)) /\
    dict_get body (VStr "data") = Some (get_or d "data" (VStr "0x")) /\
    dict_get body (VStr "nonce") = Some (get_or d "nonce" (VInt 0)) /\
    dict_get body (VStr "gas") = Some (get_or d "gas" (VInt 21000)) /\
    dict_get body (VStr "maxFeePerGas")
    = Some (get_or d "maxFeePerGas" (VInt 20000000000)) /\
    dict_get body (VStr "maxPriorityFeePerGas")
    = Some (get_or d "maxPriorityFeePerGas" (VInt 1500000000)).
Proof.
  eexists. split; [reflexivity |].
  repeat split; reflexivity.
Qed.

End ValuationFacts.

(** C5: the value of a portfolio is the sum over its symbols of balance
    times price, the price being the feed's when the symbol is in the feed
    and the default price otherwise; an absent, [None] or empty feed prices
    everything at the default, an absent default is 0.0, and the call
    leaves the module as it was.  With holdings ETH 1.0, NAPTHA 100.0,
    USDC 1000.0, prices ETH 2000, NAPTHA 10 and default 0 the value is
    3000.0. *)
Theorem total_value_is_priced_sum :
  (forall (PF : PyFloat) (balances prices : list (pyval * number))
          (default_price : number) (history : list pyval),
      Portfolio.get_total_value
        {| Portfolio.token_balances := typed_dict balances;
           Portfolio.transaction_history := history |}
        (Some (VDict (typed_dict prices))) (Some (of_number default_price))
      = let? total := value_of balances prices default_price in
        Ok (of_number total)) /\
  (forall (PF : PyFloat) (p : Portfolio.t) (default_price : option pyval),
      Portfolio.get_total_value p None default_price
      = Portfolio.get_total_value p (Some (VDict [])) default_price /\
      Portfolio.get_total_value p (Some VNone) default_price
      = Portfolio.get_total_value p (Some (VDict [])) default_price) /\
  (forall (PF : PyFloat) (p : Portfolio.t) (price_feeds : option pyval),
      Portfolio.get_total_value p price_feeds None
      = Portfolio.get_total_value p price_feeds (Some (VFloat fzero))) /\
  (forall (PF : PyFloat) (m : EconomicAgentModule.t) (price_feeds default_price : pyval),
      snd (EconomicAgentModule.get_portfolio_value price_feeds default_price m) = m) /\
  Portfolio.get_total_value example_holdings (Some example_prices) (Some (VInt 0))
  = Ok (VFloat 3000%float).
Proof.
  split; [intros; apply total_value_typed |].
  split; [intros; split; reflexivity |].
  split; [intros; reflexivity |].
  split; [| reflexivity].
  intros PF m price_feeds default_price.
  unfold EconomicAgentModule.get_portfolio_value.
  destruct (EconomicAgentModule.agent m); reflexivity.
Qed.

(** ** The registry and [create] *)

Section RegistryFacts.
Context {PF : PyFloat} {HO : Host}.

Lemma init_fresh (d : AgentDeployment) (key : string) (n : nat) :
  EconomicAgentModule.init d key n = (Ok (fresh_module d key n), S (S n)).
Proof. reflexivity. Qed.

Lemma fresh_module_ok (d : AgentDeployment) (key : string) (n : nat) :
  module_ok (fresh_module d key n).
Proof.
  unfold module_ok, fresh_module; simpl.
  do 5 eexists. repeat split; try reflexivity.
  - apply account_address_nonempty.
  - apply account_key_nonempty.
Qed.

Lemma agents_get_set_cases (l : list (string * EconomicAgentModule.t))
    (key key' : string) (m : EconomicAgentModule.t) :
  agents_get (agents_set l key m) key'
  = if (key =? key')%string then Some m else agents_get l key'.
Proof.
  induction l as [| [k m0] l IH]; simpl.
  - destruct (key =? key')%string; reflexivity.
  - destruct (k =? key)%string eqn:Ek; simpl.
    + apply String.eqb_eq in Ek. subst k.
      destruct (key =? key')%string; reflexivity.
    + destruct (k =? key')%string eqn:Ek'; [| exact IH].
      apply String.eqb_eq in Ek'. subst k. rewrite String.eqb_sym, Ek. reflexivity.
Qed.

(** A request of a validated caller: the module that serves it is the
    registered one or a fresh one, and the registry then holds the module
    as the call left it. *)
Lemma run_accepted (st : RunState) (key : string) (d : AgentDeployment)
    (f : string) (data : pyval) :
  exists st',
    run (Accepted key d f data) st
    = (match fst (dispatch f data (module_for st key d)) with
       | Ok envelope => envelope
       | Raise e => error_envelope e
       end, st') /\
    forall key',
      agents_get (_agents st') key'
      = if (key =? key')%string
        then Some (snd (dispatch f data (module_for st key d)))
        else agents_get (_agents st) key'.
Proof.
  unfold run, module_for.
  destruct (agents_get (_agents st) key) as [m |] eqn:Hget.
  - destruct (dispatch f data m) as [r m']. eexists. split; [reflexivity |].
    intros key'. simpl. apply agents_get_set_cases.
  - rewrite init_fresh.
    destruct (dispatch f data (fresh_module d key (entropy st))) as [r m'].
    eexists. split; [reflexivity |].
    intros key'. simpl. rewrite !agents_get_set_cases.
    destruct (key =? key')%string; reflexivity.
Qed.

Lemma module_for_ok (st : RunState) (key : string) (d : AgentDeployment) :
  (forall m, agents_get (_agents st) key = Some m -> module_ok m) ->
  module_ok (module_for st key d).
Proof.
  intros H. unfold module_for.
  destruct (agents_get (_agents st) key) as [m |]; [apply H; reflexivity |].
  apply fresh_module_ok.
Qed.

Lemma dispatch_create (data : pyval) (m : EconomicAgentModule.t) :
  dispatch "create" data m
  = match py_get (if truthy data then data else VDict []) "initial_holdings" VNone with
    | Ok initial_holdings => EconomicAgentModule.create initial_holdings m
    | Raise e => (Raise e, m)
    end.
Proof. reflexivity. Qed.

Lemma dispatch_get_token_balance (data : pyval) (m : EconomicAgentModule.t) :
  dispatch "get_token_balance" data m
  = match py_get (if truthy data then data else VDict []) "symbol" VNone with
    | Ok symbol => EconomicAgentModule.get_token_balance symbol m
    | Raise e => (Raise e, m)
    end.
Proof. reflexivity. Qed.

(** [create] with nothing to seed, or with a mapping: the balances are
    overwritten key by key, the history and the agent's id stay. *)
Lemma create_ok (m : EconomicAgentModule.t) (a : EconomicAgent.t)
    (p : Portfolio.t) (initial_holdings : pyval) :
  EconomicAgentModule.agent m = Some a ->
  EconomicAgent.holdings a = Some p ->
  initial_holdings = VNone \/ (exists d, initial_holdings = VDict d) ->
  let p' :=
    Portfolio.set_token_balances
      (seed initial_holdings (Portfolio.token_balances p)) p in
  EconomicAgentModule.create initial_holdings m
  = (Ok (mk [("status", VStr "success");
             ("agent_id", VStr (EconomicAgent.id a));
             ("wallet", match EconomicAgent.wallet a with
                        | Some w => AgentWallet.model_dump w
                        | None => VNone
                        end);
             ("holdings", Portfolio.model_dump p')]),
     EconomicAgentModule.set_agent
       (EconomicAgent.set_holdings (Some p') a) m).
Proof.
  intros Ha Hp Hih p'.
  assert (Hsame : initial_holdings = VNone \/ initial_holdings = VDict [] ->
                  EconomicAgentModule.set_agent
                    (EconomicAgent.set_holdings (Some p') a) m = m /\ p' = p).
  { intros E.
    assert (Hp' : p' = p).
    { subst p'. destruct E as [-> | ->]; destruct p; reflexivity. }
    split; [| exact Hp'].
    rewrite Hp'. destruct m as [dm cm am]; simpl in Ha; subst am.
    destruct a as [ia ra ta wa ha]; simpl in Hp; subst ha. reflexivity. }
  destruct Hih as [-> | [[| kv d] ->]].
  - destruct Hsame as [-> ->]; [left; reflexivity |].
    unfold EconomicAgentModule.create, EconomicAgentModule.the_agent, bind, ret;
      simpl. rewrite Ha, Hp. reflexivity.
  - destruct Hsame as [-> ->]; [right; reflexivity |].
    unfold EconomicAgentModule.create, EconomicAgentModule.the_agent, bind, ret;
      simpl. rewrite Ha, Hp. reflexivity.
  - unfold EconomicAgentModule.create, EconomicAgentModule.the_agent,
      bind, ret, get, put, lift; simpl. rewrite Ha, Hp. reflexivity.
Qed.

(** Reading a string key after an update with a mapping. *)
Lemma seed_other (d : dict) (s : string) (balances : dict) :
  (forall kv, In kv d -> fst kv <> VStr s) ->
  dict_get (seed (VDict d) balances) (VStr s) = dict_get balances (VStr s).
Proof.
  revert balances. induction d as [| [k x] d IH]; intros balances Hne; simpl.
  - reflexivity.
  - simpl in IH. rewrite IH by (intros kv Hin; apply Hne; right; exact Hin).
    rewrite dict_get_set_str.
    destruct (key_eqb k (VStr s)) eqn:E; [| reflexivity].
    apply key_eqb_str_r in E. exfalso. apply (Hne (k, x)); [left; reflexivity | exact E].
Qed.

Lemma seed_get (d : dict) (s : string) (v : pyval) (balances : dict) :
  NoDup (map fst d) ->
  In (VStr s, v) d ->
  dict_get (seed (VDict d) balances) (VStr s) = Some v.
Proof.
  revert balances. induction d as [| [k x] d IH]; intros balances Hnd Hin.
  - destruct Hin.
  - inversion Hnd as [| ? ? Hnotin Hnd']; subst.
    destruct Hin as [E | Hin].
    + injection E as -> ->.
      change (seed (VDict ((VStr s, v) :: d)) balances)
        with (seed (VDict d) (dict_set balances (VStr s) v)).
      rewrite seed_other.
      * apply dict_get_set_same.
      * intros kv Hkv E. apply Hnotin. rewrite <- E. apply in_map. exact Hkv.
    + exact (IH (dict_set balances k x) Hnd' Hin).
Qed.

(** C8: [create] with a mapping of initial holdings answers success and
    writes each seeded amount into the balances without recording a
    transaction: the caller's history is what it was, and a
    [get_token_balance] for a seeded symbol right after returns the seeded
    value. *)
Theorem seeded_balance_is_returned (st : RunState) (key : string)
    (d1 d2 : AgentDeployment) (data initial_holdings : dict) (s : string)
    (v : pyval) :
  (forall m, agents_get (_agents st) key = Some m -> module_ok m) ->
  dict_get data (VStr "initial_holdings") = Some (VDict initial_holdings) ->
  NoDup (map fst initial_holdings) ->
  In (VStr s, v) initial_holdings ->
  let r1 := run (Accepted key d1 "create" (VDict data)) st in
  let r2 := run (Accepted key d2 "get_token_balance"
                   (VDict [(VStr "symbol", VStr s)])) (snd r1) in
  status (fst r1) = Some (VStr "success") /\
  fst r2 = mk [("status", VStr "success"); ("symbol", VStr s); ("balance", v)] /\
  history_of (snd r1) key = history_of st key.
Proof.
  intros Hok Hdata Hnd Hin r1 r2.
  pose proof (module_for_ok st key d1 Hok) as Hm.
  destruct Hm as (a & w & p & addr & k & Ha & Hw & Hp & _).
  assert (Hhist : history_of st key = Portfolio.transaction_history p).
  { unfold history_of, module_for in *.
    destruct (agents_get (_agents st) key) as [m |].
    - rewrite Ha, Hp. reflexivity.
    - simpl in Ha. injection Ha as <-. simpl in Hp. injection Hp as <-. reflexivity. }
  destruct (run_accepted st key d1 "create" (VDict data)) as (st1 & Hrun1 & Hget1).
  assert (Htruthy : truthy (VDict data) = true).
  { destruct data; [discriminate Hdata | reflexivity]. }
  rewrite dispatch_create, Htruthy in Hrun1, Hget1.
  unfold py_get, get_or in Hrun1, Hget1. rewrite Hdata in Hrun1, Hget1.
  rewrite (create_ok _ a p (VDict initial_holdings) Ha Hp) in Hrun1, Hget1
    by (right; eexists; reflexivity).
  simpl fst in Hrun1. simpl snd in Hget1.
  assert (Hst1 : snd r1 = st1) by (subst r1; rewrite Hrun1; reflexivity).
  assert (Hkey : agents_get (_agents st1) key
                 = Some (EconomicAgentModule.set_agent
                           (EconomicAgent.set_holdings
                              (Some (Portfolio.set_token_balances
                                       (seed (VDict initial_holdings)
                                          (Portfolio.token_balances p)) p)) a)
                           (module_for st key d1))).
  { rewrite Hget1, String.eqb_refl. reflexivity. }
  split; [| split].
  - subst r1. rewrite Hrun1. reflexivity.
  - destruct (run_accepted st1 key d2 "get_token_balance"
                (VDict [(VStr "symbol", VStr s)])) as (st2 & Hrun2 & _).
    subst r2. rewrite Hst1, Hrun2.
    unfold module_for. rewrite Hkey.
    rewrite dispatch_get_token_balance.
    pose proof (seed_get initial_holdings s v (Portfolio.token_balances p) Hnd Hin)
      as Hseed.
    simpl. simpl in Hseed.
    change (get_or [(VStr "symbol", VStr s)] "symbol" VNone) with (VStr s).
    rewrite Hseed. reflexivity.
  - rewrite Hst1, Hhist. unfold history_of. rewrite Hkey. reflexivity.
Qed.

Lemma create_payload_holdings (data : pyval) :
  create_payload data = true ->
  exists ih,
    py_get (if truthy data then data else VDict []) "initial_holdings" VNone = Ok ih /\
    (ih = VNone \/ exists d, ih = VDict d).
Proof.
  unfold create_payload, py_get.
  destruct (if truthy data then data else VDict []); try discriminate.
  intros H. eexists. split; [reflexivity |].
  destruct (get_or d "initial_holdings" VNone); try discriminate;
    [left; reflexivity | right; eexists; reflexivity].
Qed.

Lemma module_eta (m : EconomicAgentModule.t) (a : EconomicAgent.t)
    (p : Portfolio.t) :
  EconomicAgentModule.agent m = Some a ->
  EconomicAgent.holdings a = Some p ->
  EconomicAgentModule.set_agent
    (EconomicAgent.set_holdings
       (Some (Portfolio.set_token_balances (Portfolio.token_balances p) p)) a) m
  = m /\
  EconomicAgentModule.set_agent (EconomicAgent.set_holdings (Some p) a) m = m.
Proof.
  intros Ha Hp.
  destruct m as [dm cm am]; simpl in Ha; subst am.
  destruct a as [ia ra ta wa ha]; simpl in Hp; subst ha.
  destruct p. split; reflexivity.
Qed.

(** The module a [create] leaves, whatever the initial holdings are and
    whether [update] succeeds: same agent, balances as far as [update]
    got. *)
Lemma create_state (initial_holdings : pyval) (m : EconomicAgentModule.t)
    (a : EconomicAgent.t) (p : Portfolio.t) :
  EconomicAgentModule.agent m = Some a ->
  EconomicAgent.holdings a = Some p ->
  snd (EconomicAgentModule.create initial_holdings m)
  = EconomicAgentModule.set_agent
      (EconomicAgent.set_holdings
         (Some (Portfolio.set_token_balances
                  (if truthy initial_holdings
                   then snd (dict_update (Portfolio.token_balances p) initial_holdings)
                   else Portfolio.token_balances p) p)) a) m.
Proof.
  intros Ha Hp.
  unfold EconomicAgentModule.create, EconomicAgentModule.the_agent,
    bind, ret, get, put, lift.
  destruct (truthy initial_holdings); rewrite Ha.
  - rewrite Hp.
    destruct (dict_update (Portfolio.token_balances p) initial_holdings) as [r b].
    destruct r; reflexivity.
  - simpl snd. symmetry. exact (proj1 (module_eta m a p Ha Hp)).
Qed.

Lemma dispatch_create_state (data : pyval) (m : EconomicAgentModule.t)
    (a : EconomicAgent.t) (p : Portfolio.t) :
  EconomicAgentModule.agent m = Some a ->
  EconomicAgent.holdings a = Some p ->
  snd (dispatch "create" data m)
  = EconomicAgentModule.set_agent
      (EconomicAgent.set_holdings (Some (holdings_after_create data p)) a) m.
Proof.
  intros Ha Hp. rewrite dispatch_create. unfold holdings_after_create.
  destruct (py_get _ "initial_holdings" VNone) as [ih | e].
  - exact (create_state ih m a p Ha Hp).
  - simpl snd. symmetry. exact (proj2 (module_eta m a p Ha Hp)).
Qed.

(** [create] raises, or answers success with the id of the agent it
    found. *)
Lemma create_result (initial_holdings : pyval) (m : EconomicAgentModule.t)
    (a : EconomicAgent.t) (p : Portfolio.t) :
  EconomicAgentModule.agent m = Some a ->
  EconomicAgent.holdings a = Some p ->
  (exists e, fst (EconomicAgentModule.create initial_holdings m) = Raise e) \/
  (exists w h,
     fst (EconomicAgentModule.create initial_holdings m)
     = Ok (mk [("status", VStr "success");
               ("agent_id", VStr (EconomicAgent.id a));
               ("wallet", w); ("holdings", h)])).
Proof.
  intros Ha Hp.
  unfold EconomicAgentModule.create, EconomicAgentModule.the_agent,
    bind, ret, get, put, lift.
  destruct (truthy initial_holdings); rewrite Ha.
  - rewrite Hp.
    destruct (dict_update (Portfolio.token_balances p) initial_holdings) as [r b].
    destruct r as [[] | e].
    + right. do 2 eexists. reflexivity.
    + left. eexists. reflexivity.
  - right. do 2 eexists. reflexivity.
Qed.

Lemma run_create_envelope (st : RunState) (key : string) (d : AgentDeployment)
    (data : pyval) (a : EconomicAgent.t) (p : Portfolio.t) :
  EconomicAgentModule.agent (module_for st key d) = Some a ->
  EconomicAgent.holdings a = Some p ->
  create_envelope (EconomicAgent.id a)
    (fst (run (Accepted key d "create" data) st)).
Proof.
  intros Ha Hp.
  destruct (run_accepted st key d "create" data) as (st' & Hrun & _).
  rewrite Hrun. simpl fst. rewrite dispatch_create.
  destruct (py_get _ "initial_holdings" VNone) as [ih | e].
  - destruct (create_result ih _ a p Ha Hp) as [[e He] | (w & h & Hok)].
    + rewrite He. left. split; reflexivity.
    + rewrite Hok. right. split; reflexivity.
  - left. split; reflexivity.
Qed.

(** Only the first request of a caller draws an id and a key pair. *)
Lemma run_entropy (st : RunState) (key : string) (d : AgentDeployment)
    (f : string) (data : pyval) :
  entropy (snd (run (Accepted key d f data) st))
  = match agents_get (_agents st) key with
    | Some _ => entropy st
    | None => S (S (entropy st))
    end.
Proof.
  unfold run.
  destruct (agents_get (_agents st) key) as [m |].
  - destruct (dispatch f data m) as [r m']. reflexivity.
  - rewrite init_fresh.
    destruct (dispatch f data (fresh_module d key (entropy st))) as [r m'].
    reflexivity.
Qed.

(** C9, as the code has it: of two [create] requests in a row with the
    same caller key, the second is served by the module the first left in
    the registry, not by a new one: the registry holds the same module and
    agent (the deployment, consumer id, id and wallet of the first request)
    with the holdings of the first [create] updated by the second, and the
    second request draws no id or key; only a first request of an
    unregistered caller does.  Each request is answered with an error
    envelope without [agent_id] or with a success envelope carrying that
    agent's id; when each request seeds nothing or seeds from a mapping,
    both answer success and carry that agent's id as [agent_id]. *)
Theorem create_twice_same_agent (st : RunState) (key : string)
    (d1 d2 : AgentDeployment) (data1 data2 : pyval) :
  (forall m, agents_get (_agents st) key = Some m -> module_ok m) ->
  let r1 := run (Accepted key d1 "create" data1) st in
  let r2 := run (Accepted key d2 "create" data2) (snd r1) in
  exists a p,
    EconomicAgentModule.agent (module_for st key d1) = Some a /\
    EconomicAgent.holdings a = Some p /\
    agents_get (_agents (snd r1)) key
    = Some (EconomicAgentModule.set_agent
              (EconomicAgent.set_holdings
                 (Some (holdings_after_create data1 p)) a)
              (module_for st key d1)) /\
    agents_get (_agents (snd r2)) key
    = Some (EconomicAgentModule.set_agent
              (EconomicAgent.set_holdings
                 (Some (holdings_after_create data2
                          (holdings_after_create data1 p))) a)
              (module_for st key d1)) /\
    entropy (snd r2) = entropy (snd r1) /\
    (agents_get (_agents st) key = None ->
     EconomicAgent.id a = uuid4 (entropy st) /\
     entropy (snd r1) = S (S (entropy st))) /\
    create_envelope (EconomicAgent.id a) (fst r1) /\
    create_envelope (EconomicAgent.id a) (fst r2) /\
    (create_payload data1 = true ->
     create_payload data2 = true ->
     status (fst r1) = Some (VStr "success") /\
     status (fst r2) = Some (VStr "success") /\
     dict_get (fst r1) (VStr "agent_id") = Some (VStr (EconomicAgent.id a)) /\
     dict_get (fst r2) (VStr "agent_id") = Some (VStr (EconomicAgent.id a))).
Proof.
  intros Hok r1 r2.
  pose proof (module_for_ok st key d1 Hok) as Hm.
  destruct Hm as (a & w & p & addr & k & Ha & Hw & Hp & _).
  exists a, p.
  set (p1 := holdings_after_create data1 p).
  set (a1 := EconomicAgent.set_holdings (Some p1) a).
  set (m1 := EconomicAgentModule.set_agent a1 (module_for st key d1)).
  destruct (run_accepted st key d1 "create" data1) as (st1 & Hrun1 & Hreg1).
  specialize (Hreg1 key). rewrite String.eqb_refl in Hreg1.
  rewrite (dispatch_create_state data1 _ a p Ha Hp) in Hreg1.
  fold p1 a1 m1 in Hreg1.
  assert (Hst1 : snd r1 = st1) by (subst r1; rewrite Hrun1; reflexivity).
  destruct (run_accepted st1 key d2 "create" data2) as (st2 & Hrun2 & Hreg2).
  specialize (Hreg2 key). rewrite String.eqb_refl in Hreg2.
  assert (Hfor : module_for st1 key d2 = m1).
  { unfold module_for. rewrite Hreg1. reflexivity. }
  rewrite Hfor in Hrun2, Hreg2.
  rewrite (dispatch_create_state data2 m1 a1 p1 eq_refl eq_refl) in Hreg2.
  assert (Hst2 : snd r2 = st2) by (subst r2; rewrite Hst1, Hrun2; reflexivity).
  split; [exact Ha |]. split; [exact Hp |].
  split; [rewrite Hst1; exact Hreg1 |].
  split; [rewrite Hst2; exact Hreg2 |].
  split.
  { subst r2. rewrite run_entropy, Hst1, Hreg1. reflexivity. }
  split.
  { intros Hnone. split.
    - unfold module_for in Ha. rewrite Hnone in Ha. simpl in Ha.
      injection Ha as <-. reflexivity.
    - subst r1. rewrite run_entropy, Hnone. reflexivity. }
  split; [exact (run_create_envelope st key d1 data1 a p Ha Hp) |].
  split.
  { subst r2. rewrite Hst1.
    apply (run_create_envelope st1 key d2 data2 a1 p1).
    - rewrite Hfor. reflexivity.
    - reflexivity. }
  intros Hdata1 Hdata2.
  destruct (create_payload_holdings data1 Hdata1) as (ih1 & Hget1 & Hih1).
  destruct (create_payload_holdings data2 Hdata2) as (ih2 & Hget2 & Hih2).
  rewrite dispatch_create, Hget1 in Hrun1.
  rewrite (create_ok _ a p ih1 Ha Hp Hih1) in Hrun1. simpl fst in Hrun1.
  rewrite dispatch_create, Hget2 in Hrun2.
  rewrite (create_ok m1 a1 p1 ih2 eq_refl eq_refl Hih2) in Hrun2.
  simpl fst in Hrun2.
  subst r2 r1. rewrite Hrun1. simpl snd. rewrite Hrun2. simpl fst.
  repeat split; reflexivity.
Qed.

(** *** The wallet stays *)

Lemma set_holdings_ok (m : EconomicAgentModule.t) (a : EconomicAgent.t)
    (p : Portfolio.t) :
  module_ok m ->
  EconomicAgentModule.agent m = Some a ->
  module_ok (EconomicAgentModule.set_agent (EconomicAgent.set_holdings (Some p) a) m).
Proof.
  intros (a0 & w & p0 & addr & k & Ha0 & Hw & Hp0 & Haddr) Ha.
  rewrite Ha in Ha0. injection Ha0 as <-.
  exists (EconomicAgent.set_holdings (Some p) a), w, p, addr, k.
  repeat split; try reflexivity; try apply Haddr. exact Hw.
Qed.

Lemma create_preserves_ok (initial_holdings : pyval) (m : EconomicAgentModule.t) :
  module_ok m -> module_ok (snd (EconomicAgentModule.create initial_holdings m)).
Proof.
  intros Hok.
  pose proof Hok as (a & w & p & addr & k & Ha & Hw & Hp & _).
  unfold EconomicAgentModule.create, EconomicAgentModule.the_agent,
    bind, ret, get, put, lift.
  destruct (truthy initial_holdings); rewrite Ha; [| exact Hok].
  rewrite Hp.
  destruct (dict_update (Portfolio.token_balances p) initial_holdings) as [r b].
  destruct r; simpl; apply set_holdings_ok; assumption.
Qed.

Lemma agent_add_transaction_state (d : dict) (a : EconomicAgent.t) (p : Portfolio.t) :
  EconomicAgent.holdings a = Some p ->
  exists p', snd (EconomicAgent.add_transaction d a)
             = EconomicAgent.set_holdings (Some p') a.
Proof.
  intros Hp. unfold EconomicAgent.add_transaction. rewrite Hp.
  destruct (Portfolio.record_transaction d p) as [r p']. exists p'. reflexivity.
Qed.

Lemma add_transaction_preserves_ok (tx : pyval) (m : EconomicAgentModule.t) :
  module_ok m -> module_ok (snd (EconomicAgentModule.add_transaction tx m)).
Proof.
  intros Hok.
  pose proof Hok as (a & w & p & addr & k & Ha & Hw & Hp & _).
  destruct (agent_add_transaction_state
              match tx with VDict d => d | _ => [] end a p Hp) as (p' & Hrec).
  assert (Hrecord : forall d, tx = VDict d ->
            module_ok (EconomicAgentModule.set_agent
                         (snd (EconomicAgent.add_transaction d a)) m)).
  { intros d ->. rewrite Hrec. apply set_holdings_ok; assumption. }
  unfold EconomicAgentModule.add_transaction. rewrite Ha.
  destruct tx as [| b | z | f | s | l | d]; try exact Hok.
  specialize (Hrecord d eq_refl).
  destruct (EconomicAgent.add_transaction d a) as [r a'].
  simpl snd in Hrecord.
  repeat match goal with
         | |- module_ok (snd (if ?c then _ else _)) => destruct c
         | |- module_ok (snd (match ?c with _ => _ end)) => destruct c
         | |- module_ok (snd (_, _)) => simpl snd
         end; assumption.
Qed.

Lemma call_preserves_ok (method : attribute) (arg : pyval)
    (m : EconomicAgentModule.t) :
  module_ok m -> module_ok (snd (call method arg m)).
Proof.
  intros Hok.
  pose proof Hok as (a & w & p & addr & k & Ha & _).
  destruct method as [[| | | |] | s | c |]; simpl;
    try exact Hok;
    try (apply create_preserves_ok; exact Hok);
    try (apply add_transaction_preserves_ok; exact Hok);
    unfold EconomicAgentModule.get_token_balance,
      EconomicAgentModule.get_portfolio_value,
      EconomicAgentModule.sign_transaction;
    rewrite Ha; exact Hok.
Qed.

Lemma dispatch_preserves_ok (f : string) (data : pyval) (m : EconomicAgentModule.t) :
  module_ok m -> module_ok (snd (dispatch f data m)).
Proof.
  intros Hok.
  pose proof Hok as (a & w & p & addr & k & Ha & _).
  unfold dispatch, bind, get, lift, ret.
  destruct (getattr m f) as [method | e]; [| exact Hok].
  destruct (attr_truthy method); cbn [negb]; cbv beta iota; [| exact Hok].
  destruct (f =? "create")%string.
  { destruct (py_get _ "initial_holdings" VNone); [| exact Hok].
    apply create_preserves_ok; exact Hok. }
  destruct (f =? "add_transaction")%string.
  { apply add_transaction_preserves_ok; exact Hok. }
  destruct (f =? "get_token_balance")%string.
  { destruct (py_get _ "symbol" VNone); [| exact Hok].
    unfold EconomicAgentModule.get_token_balance. cbv beta. rewrite Ha. exact Hok. }
  destruct (f =? "get_portfolio_value")%string.
  { destruct (py_get _ "price_feeds" VNone); [| exact Hok].
    destruct (py_get _ "default_price" (VFloat fzero)); [| exact Hok].
    destruct (Portfolio.py_float _); [| exact Hok].
    unfold EconomicAgentModule.get_portfolio_value. cbv beta. rewrite Ha. exact Hok. }
  apply call_preserves_ok; exact Hok.
Qed.

Lemma run_preserves_registry_ok (request : module_run) (st : RunState) :
  registry_ok st -> registry_ok (snd (run request st)).
Proof.
  intros Hreg. destruct request as [e | key d f data]; [exact Hreg |].
  destruct (run_accepted st key d f data) as (st' & Hrun & Hget).
  rewrite Hrun. simpl snd. intros key' m Hm. rewrite Hget in Hm.
  destruct (key =? key')%string.
  - injection Hm as <-. apply dispatch_preserves_ok.
    apply module_for_ok. intros m0. apply Hreg.
  - exact (Hreg key' m Hm).
Qed.

Lemma reachable_registry_ok (st : RunState) : reachable st -> registry_ok st.
Proof.
  induction 1 as [| request st Hst IH Hplain].
  - intros key m H. discriminate H.
  - apply run_preserves_registry_ok. exact IH.
Qed.

Lemma wallet_sign_nonempty (w : AgentWallet.t) (tx_data : pyval) :
  AgentWallet.sign_transaction w tx_data <> Ok [].
Proof.
  unfold AgentWallet.sign_transaction.
  destruct (AgentWallet.format_transaction w tx_data); simpl; discriminate.
Qed.

Lemma module_sign_not_failure (m : EconomicAgentModule.t) (tx_data : pyval) :
  module_ok m ->
  fst (EconomicAgentModule.sign_transaction tx_data m) <> Ok EconomicAgentModule.sign_failure /\
  fst (EconomicAgentModule.sign_transaction tx_data m) <> Ok EconomicAgentModule.not_initialized.
Proof.
  intros (a & w & p & addr & k & Ha & Hw & _).
  unfold EconomicAgentModule.sign_transaction, EconomicAgent.sign_transaction,
    AgentWallet.sign_transaction.
  rewrite Ha, Hw.
  destruct (AgentWallet.format_transaction w tx_data); simpl;
    split; discriminate.
Qed.

(** C10: the module the dispatcher constructs has an agent with a wallet
    whose address and key are non-empty, and with holdings; every module in
    the registry of a reachable state still has them; hence the agent's
    [sign_transaction] never returns the empty mapping there, and the
    module's [sign_transaction] never answers with the sign-failure
    envelope (nor with the not-initialized one). *)
Theorem sign_failure_is_unreachable :
  (forall d key n,
      EconomicAgentModule.init d key n = (Ok (fresh_module d key n), S (S n)) /\
      module_ok (fresh_module d key n)) /\
  (forall st key m tx_data,
      reachable st ->
      agents_get (_agents st) key = Some m ->
      module_ok m /\
      (forall a, EconomicAgentModule.agent m = Some a ->
                 EconomicAgent.sign_transaction a tx_data <> Ok []) /\
      fst (EconomicAgentModule.sign_transaction tx_data m) <> Ok EconomicAgentModule.sign_failure /\
      fst (EconomicAgentModule.sign_transaction tx_data m) <> Ok EconomicAgentModule.not_initialized).
Proof.
  split.
  - intros d key n. split; [apply init_fresh | apply fresh_module_ok].
  - intros st key m tx_data Hst Hm.
    pose proof (reachable_registry_ok st Hst key m Hm) as Hok.
    split; [exact Hok |]. split; [| exact (module_sign_not_failure m tx_data Hok)].
    intros a Ha. destruct Hok as (a0 & w & p & addr & k & Ha0 & Hw & _).
    rewrite Ha in Ha0. injection Ha0 as <-.
    unfold EconomicAgent.sign_transaction. rewrite Hw.
    apply wallet_sign_nonempty.
Qed.

End RegistryFacts.

(** ** Operation names *)

Section NameFacts.
Context {PF : PyFloat} {HO : Host}.

Lemma prefix_app (a b : string) : prefix a (a ++ b) = true.
Proof.
  induction a as [| c a IH]; simpl.
  - destruct b; reflexivity.
  - destruct (ascii_dec c c) as [_ | Hne]; [exact IH | exfalso; apply Hne; reflexivity].
Qed.

Lemma string_contains_prefix (needle s : string) :
  prefix needle s = true -> string_contains needle s = true.
Proof. intros H. destruct s; cbn [string_contains]; rewrite H; reflexivity. Qed.

Lemma string_contains_app (needle before after : string) :
  string_contains needle (before ++ needle ++ after) = true.
Proof.
  induction before as [| c before IH].
  - cbn [append]. apply string_contains_prefix, prefix_app.
  - cbn [append string_contains]. rewrite IH. apply orb_true_r.
Qed.

(** A name the module object does not have (and that is no [__x__] name)
    is reported by name: the AttributeError of [getattr] is caught and its
    message carries the name. *)
Lemma unknown_name_is_named (st : RunState) (key : string) (d : AgentDeployment)
    (f : string) (data : pyval) :
  plain_name f = true ->
  known_attribute f = false ->
  exists msg,
    fst (run (Accepted key d f data) st)
    = mk [("status", VStr "error"); ("message", VStr msg)] /\
    string_contains f msg = true.
Proof.
  intros _ Hf.
  destruct (run_accepted st key d f data) as (st' & Hrun & _).
  rewrite Hrun. simpl fst.
  assert (Hget : forall m, getattr m f
            = Raise (Exn AttributeError
                       ("'EconomicAgentModule' object has no attribute '" ++ f ++ "'"))).
  { intros m. unfold known_attribute in Hf. simpl in Hf.
    unfold getattr.
    repeat match goal with
           | |- context [(f =? ?s)%string] =>
               destruct (f =? s)%string; [discriminate Hf |]
           end.
    reflexivity. }
  unfold dispatch, bind, get, lift. rewrite Hget. simpl fst.
  eexists. split; [reflexivity |].
  apply (string_contains_app f "'EconomicAgentModule' object has no attribute '" "'").
Qed.

End NameFacts.

(** ** The code on concrete requests *)

(** C2, what the code does: the first request of a caller builds its
    module and agent whatever the operation, so an operation other than
    [create] on a caller never seen is carried out on an empty portfolio
    and answered as such, never with the not-initialized envelope: the
    balance query answers 0.0, the transaction is recorded, the valuation
    answers 0, the signing answers a signed record. *)
Theorem operations_run_before_create :
  fst (run (Accepted "user-1" example_deployment "get_token_balance"
              (VDict [(sym "symbol", sym "ETH")])) initial_state)
  = mk [("status", VStr "success"); ("symbol", sym "ETH");
        ("balance", VFloat 0%float)] /\
  (let r := run (Accepted "user-1" example_deployment "add_transaction"
                   (VDict (example_tx "deposit" "ETH" 2%float))) initial_state in
   fst r = mk [("status", VStr "success");
               ("transaction", VDict (example_tx "deposit" "ETH" 2%float))] /\
   history_of (snd r) "user-1" = [VDict (example_tx "deposit" "ETH" 2%float)]) /\
  fst (run (Accepted "user-1" example_deployment "get_portfolio_value" VNone)
         initial_state)
  = mk [("status", VStr "success"); ("value", VInt 0)] /\
  status (fst (run (Accepted "user-1" example_deployment "sign_transaction" VNone)
                 initial_state))
  = Some (VStr "signed").
Proof. repeat split; reflexivity. Qed.

(** C7, what the code does on the name of a data attribute: [getattr]
    finds the caller's id, a string, the call of it raises, and the
    envelope carries that TypeError's message, which does not name the
    operation. *)
Theorem data_attribute_is_not_named :
  fst (run (Accepted "user-1" example_deployment "consumer_id" VNone) initial_state)
  = mk [("status", VStr "error");
        ("message", VStr "'str' object is not callable")] /\
  string_contains "consumer_id" "'str' object is not callable" = false.
Proof. split; reflexivity. Qed.

(** C6 as stated fails: an input that has [chainId] does not get it into
    the body. *)
Lemma chain_id_of_input_is_ignored :
  exists r body,
    AgentWallet.sign_transaction example_wallet (VDict [(sym "chainId", VInt 5)])
    = Ok r /\
    dict_get r (VStr "tx_data") = Some (VDict body) /\
    ~ takes_input_or_default [(sym "chainId", VInt 5)] body.
Proof.
  do 2 eexists. split; [reflexivity |]. split; [reflexivity |].
  intros H.
  specialize (H "chainId" (VInt 1)).
  assert (Hin : In ("chainId", @VInt binary64 1) stated_defaults).
  { right; right; left; reflexivity. }
  specialize (H Hin).
  change (Some (@VInt binary64 1) = Some (VInt 5)) in H. discriminate H.
Qed.

(** C1 as stated fails: after a deposit of the int 2^53 + 1 into an empty
    portfolio (where every balance equals the sum of the recorded amounts),
    the balance is [float(2^53 + 1)], that is 9007199254740992.0, which
    does not equal the sum of the recorded amounts, 9007199254740993. *)
Lemma balance_is_not_the_sum_of_amounts :
  balance_is_amounts_sum example_empty /\
  Portfolio.record_transaction example_big_deposit example_empty
  = (Ok tt, snd (Portfolio.record_transaction example_big_deposit example_empty)) /\
  Portfolio.get_token_balance
    (snd (Portfolio.record_transaction example_big_deposit example_empty))
    (VStr "ETH")
  = Ok (VFloat 9007199254740992%float) /\
  amounts_sum "ETH"
    (Portfolio.transaction_history
       (snd (Portfolio.record_transaction example_big_deposit example_empty)))
  = Ok (NInt 9007199254740993) /\
  ~ balance_is_amounts_sum
      (snd (Portfolio.record_transaction example_big_deposit example_empty)).
Proof.
  split.
  { intros s. exists (VFloat (flt 0)), (NFloat (flt 0)), (NInt 0).
    repeat split; reflexivity. }
  split; [reflexivity |]. split; [reflexivity |]. split; [reflexivity |].
  intros H. destruct (H "ETH") as (balance & b & total & Hbal & Hb & Htotal & Heq).
  assert (E1 : Portfolio.get_token_balance
                 (snd (Portfolio.record_transaction example_big_deposit example_empty))
                 (VStr "ETH")
               = Ok (VFloat (flt 9007199254740992))) by reflexivity.
  rewrite E1 in Hbal. injection Hbal as <-.
  injection Hb as <-.
  assert (E2 : amounts_sum "ETH"
                 (Portfolio.transaction_history
                    (snd (Portfolio.record_transaction example_big_deposit
                            example_empty)))
               = Ok (NInt 9007199254740993)) by reflexivity.
  rewrite E2 in Htotal. injection Htotal as <-.
  assert (E3 : num_eqb (NFloat (flt 9007199254740992)) (NInt 9007199254740993)
               = false) by reflexivity.
  rewrite E3 in Heq. discriminate Heq.
Qed.

(** C4 as stated fails: a trade of the int 10^400 has its three keys and
    an amount [>= 0], and is not answered with a success: [float()] raises
    OverflowError after the transaction was appended to the history, and no
    balance has moved; through [run] the answer is an error envelope. *)
Lemma huge_trade_is_not_a_success :
  EconomicAgentModule.has_required_keys example_huge_trade = true /\
  in_strs (get_or example_huge_trade "type" VNone) ["withdraw"; "trade"] = true /\
  num_ge (NInt (10 ^ 400)) (NInt 0) = true /\
  EconomicAgentModule.add_transaction (VDict example_huge_trade) example_module
  = (Raise (Exn OverflowError "int too large to convert to float"),
     EconomicAgentModule.set_agent
       (EconomicAgent.set_holdings
          (Some (Portfolio.append_history (VDict example_huge_trade) example_empty))
          example_agent) example_module) /\
  fst (EconomicAgentModule.add_transaction (VDict example_huge_trade) example_module)
  <> Ok (mk [("status", VStr "success"); ("transaction", VDict example_huge_trade)]) /\
  let r := run (Accepted "user-1" example_deployment "add_transaction"
                  (VDict example_huge_trade)) initial_state in
  fst r = mk [("status", VStr "error");
              ("message", VStr "int too large to convert to float")] /\
  history_of (snd r) "user-1" = [VDict example_huge_trade].
Proof.
  assert (E : EconomicAgentModule.add_transaction (VDict example_huge_trade)
                example_module
              = (Raise (Exn OverflowError "int too large to convert to float"),
                 EconomicAgentModule.set_agent
                   (EconomicAgent.set_holdings
                      (Some (Portfolio.append_history (VDict example_huge_trade)
                               example_empty))
                      example_agent) example_module)) by reflexivity.
  split; [reflexivity |]. split; [reflexivity |]. split; [reflexivity |].
  split; [exact E |]. split; [rewrite E; discriminate |].
  split; reflexivity.
Qed.

(** C9 as stated fails: two [create] requests in a row whose initial
    holdings are the number 5 are both answered with an error envelope that
    carries no [agent_id] ([update] cannot iterate over an int). *)
Lemma create_with_a_number_is_an_error :
  let r1 := run (Accepted "user-1" example_deployment "create" example_number_create)
              initial_state in
  let r2 := run (Accepted "user-1" example_deployment "create" example_number_create)
              (snd r1) in
  fst r1 = mk [("status", VStr "error");
               ("message", VStr "'int' object is not iterable")] /\
  fst r2 = mk [("status", VStr "error");
               ("message", VStr "'int' object is not iterable")] /\
  dict_get (fst r1) (VStr "agent_id") = None /\
  dict_get (fst r2) (VStr "agent_id") = None.
Proof. repeat split; reflexivity. Qed.

(** ** The theorems on concrete inputs *)

(** Three transactions recorded into an empty portfolio. *)
Lemma balances_follow_history_witness :
  balances_match example_empty /\
  Forall valid_transaction example_txs /\
  exists p',
    record_all example_txs example_empty = (Ok tt, p') /\
    Portfolio.transaction_history p'
    = (Portfolio.transaction_history example_empty ++ map VDict example_txs)%list /\
    forall s,
      Portfolio.get_token_balance p' (VStr s)
      = Ok (VFloat (history_sum s (Portfolio.transaction_history p'))).
Proof.
  assert (H1 : balances_match example_empty) by (intros s; reflexivity).
  assert (H2 : Forall valid_transaction example_txs).
  { repeat constructor; unfold valid_transaction;
      do 4 eexists; (split; [reflexivity |]); (split; [reflexivity |]);
      split; reflexivity. }
  split; [exact H1 |]. split; [exact H2 |].
  exact (balances_follow_history (PF:=binary64) example_txs example_empty H1 H2).
Defined.

(** An overdrawing withdraw on a fresh module. *)
Lemma failed_validation_changes_nothing_witness :
  EconomicAgentModule.agent example_module = Some example_agent /\
  fails_validation example_agent
    (VDict (example_tx "withdraw" "NAPTHA" (-1000)%float)) = true /\
  exists envelope msg,
    EconomicAgentModule.add_transaction
      (VDict (example_tx "withdraw" "NAPTHA" (-1000)%float)) example_module
    = (Ok envelope, example_module) /\
    status envelope = Some (VStr "error") /\
    message envelope = Some (VStr msg) /\
    (forall d, VDict (example_tx "withdraw" "NAPTHA" (-1000)%float) = VDict d ->
               lacks_required_key d = false ->
               dict_get envelope (VStr "transaction")
               = Some (VDict (example_tx "withdraw" "NAPTHA" (-1000)%float))).
Proof.
  assert (H1 : EconomicAgentModule.agent example_module = Some example_agent)
    by reflexivity.
  assert (H2 : fails_validation example_agent
                 (VDict (example_tx "withdraw" "NAPTHA" (-1000)%float)) = true)
    by reflexivity.
  split; [exact H1 |]. split; [exact H2 |].
  exact (proj1 (failed_validation_changes_nothing (PF:=binary64)
                  example_module example_agent H1)
           _ H2).
Defined.

(** A trade of +50 NAPTHA on a fresh module, whose NAPTHA balance is 0. *)
Lemma nonnegative_amount_skips_balance_check_witness :
  num_ge (NFloat 50%float) (NInt 0) = true /\
  exists m' a' p',
    EconomicAgentModule.add_transaction
      (VDict (example_tx "trade" "NAPTHA" 50%float)) example_module
    = (Ok (mk [("status", VStr "success");
               ("transaction", VDict (example_tx "trade" "NAPTHA" 50%float))]), m') /\
    EconomicAgentModule.agent m' = Some a' /\
    EconomicAgent.holdings a' = Some p' /\
    Portfolio.transaction_history p'
    = (Portfolio.transaction_history example_empty
         ++ [VDict (example_tx "trade" "NAPTHA" 50%float)])%list /\
    Portfolio.get_token_balance p' (VStr "NAPTHA")
    = Ok (VFloat (fadd 0%float 50%float)).
Proof.
  assert (Hge : num_ge (NFloat 50%float) (NInt 0) = true) by reflexivity.
  split; [exact Hge |].
  apply (nonnegative_amount_skips_balance_check (PF:=binary64)
           example_module example_agent example_empty
           (example_tx "trade" "NAPTHA" 50%float) "trade" "NAPTHA"
           (VFloat (50%float : @F binary64)) (VFloat (0%float : @F binary64))
           (NFloat (50%float : @F binary64)) (NFloat (0%float : @F binary64))
           (50%float : @F binary64) (0%float : @F binary64));
    first [reflexivity | right; reflexivity].
Defined.

(** The first [create] of a caller, seeding four symbols. *)
Lemma seeded_balance_is_returned_witness :
  NoDup (map fst example_seed) /\
  In (VStr "USDC", VFloat 1000%float) example_seed /\
  let r1 := run (Accepted "user-1" example_deployment "create" example_create)
              initial_state in
  let r2 := run (Accepted "user-1" example_deployment "get_token_balance"
                   (VDict [(VStr "symbol", VStr "USDC")])) (snd r1) in
  status (fst r1) = Some (VStr "success") /\
  fst r2 = mk [("status", VStr "success"); ("symbol", VStr "USDC");
               ("balance", VFloat 1000%float)] /\
  history_of (snd r1) "user-1" = history_of initial_state "user-1".
Proof.
  assert (Hnd : NoDup (map fst example_seed)).
  { repeat constructor; simpl; intuition discriminate. }
  assert (Hin : In (VStr "USDC", VFloat 1000%float) example_seed).
  { right; right; left; reflexivity. }
  split; [exact Hnd |]. split; [exact Hin |].
  apply (seeded_balance_is_returned (PF:=binary64) initial_state "user-1"
           example_deployment example_deployment
           [(sym "initial_holdings", VDict example_seed)] example_seed
           "USDC" (VFloat (1000%float : @F binary64))).
  - intros m H. discriminate H.
  - reflexivity.
  - exact Hnd.
  - exact Hin.
Defined.

(** A seeding [create] followed by a [create] without input, from the
    start of the process. *)
Lemma create_twice_same_agent_witness :
  (forall m, agents_get (_agents initial_state) "user-1" = Some m -> module_ok m) /\
  agents_get (_agents initial_state) "user-1" = None /\
  create_payload example_create = true /\
  create_payload VNone = true /\
  let r1 := run (Accepted "user-1" example_deployment "create" example_create)
              initial_state in
  let r2 := run (Accepted "user-1" example_deployment "create" VNone) (snd r1) in
  exists a p,
    EconomicAgentModule.agent
      (module_for initial_state "user-1" example_deployment) = Some a /\
    EconomicAgent.holdings a = Some p /\
    agents_get (_agents (snd r1)) "user-1"
    = Some (EconomicAgentModule.set_agent
              (EconomicAgent.set_holdings
                 (Some (holdings_after_create example_create p)) a)
              (module_for initial_state "user-1" example_deployment)) /\
    agents_get (_agents (snd r2)) "user-1"
    = Some (EconomicAgentModule.set_agent
              (EconomicAgent.set_holdings
                 (Some (holdings_after_create VNone
                          (holdings_after_create example_create p))) a)
              (module_for initial_state "user-1" example_deployment)) /\
    entropy (snd r2) = entropy (snd r1) /\
    (agents_get (_agents initial_state) "user-1" = None ->
     EconomicAgent.id a = uuid4 (entropy initial_state) /\
     entropy (snd r1) = S (S (entropy initial_state))) /\
    create_envelope (EconomicAgent.id a) (fst r1) /\
    create_envelope (EconomicAgent.id a) (fst r2) /\
    (create_payload example_create = true ->
     create_payload VNone = true ->
     status (fst r1) = Some (VStr "success") /\
     status (fst r2) = Some (VStr "success") /\
     dict_get (fst r1) (VStr "agent_id") = Some (VStr (EconomicAgent.id a)) /\
     dict_get (fst r2) (VStr "agent_id") = Some (VStr (EconomicAgent.id a))).
Proof.
  assert (H : forall m, agents_get (_agents initial_state) "user-1" = Some m ->
                        module_ok m)
    by (intros m E; discriminate E).
  split; [exact H |].
  split; [reflexivity |]. split; [reflexivity |]. split; [reflexivity |].
  exact (create_twice_same_agent (PF:=binary64) initial_state "user-1"
           example_deployment example_deployment example_create VNone H).
Defined.

(** The module of caller [user-1] after its first [create]. *)
Lemma sign_failure_is_unreachable_witness :
  reachable example_state /\
  exists m,
    agents_get (_agents example_state) "user-1" = Some m /\
    module_ok m /\
    (forall a, EconomicAgentModule.agent m = Some a ->
               EconomicAgent.sign_transaction a (VDict []) <> Ok []) /\
    fst (EconomicAgentModule.sign_transaction (VDict []) m)
    <> Ok EconomicAgentModule.sign_failure /\
    fst (EconomicAgentModule.sign_transaction (VDict []) m)
    <> Ok EconomicAgentModule.not_initialized.
Proof.
  assert (Hreach : reachable example_state).
  { apply reachable_run; [apply reachable_initial | reflexivity]. }
  split; [exact Hreach |].
  eexists. split; [reflexivity |].
  exact (proj2 (sign_failure_is_unreachable (PF:=binary64)) example_state "user-1" _ (VDict [])
           Hreach eq_refl).
Defined.

(** ** Further properties of the portfolio and the agent *)

Section LedgerFacts.
Context {PF : PyFloat} {HO : Host}.

(** A reward that [float()] accepts is appended and added to the total, so
    a total that is the sum of the rewards stays so; a reward that
    [float()] refuses raises before anything is stored. *)
Theorem add_reward_keeps_total (a : EconomicAgent.t) (reward : pyval) :
  EconomicAgent.total_reward a = rewards_sum (EconomicAgent.rewards a) ->
  (forall r,
     Portfolio.py_float reward = Ok r ->
     exists a',
       EconomicAgent.add_reward reward a = (Ok tt, a') /\
       EconomicAgent.rewards a' = (EconomicAgent.rewards a ++ [r])%list /\
       EconomicAgent.total_reward a' = rewards_sum (EconomicAgent.rewards a') /\
       EconomicAgent.id a' = EconomicAgent.id a /\
       EconomicAgent.wallet a' = EconomicAgent.wallet a /\
       EconomicAgent.holdings a' = EconomicAgent.holdings a) /\
  (forall e,
     Portfolio.py_float reward = Raise e ->
     EconomicAgent.add_reward reward a = (Raise e, a)).
Proof.
  intros Hinv. split.
  - intros r Hr. unfold EconomicAgent.add_reward, bind, lift, get, put.
    rewrite Hr. eexists. split; [reflexivity |]. simpl.
    repeat split.
    unfold rewards_sum. rewrite fold_left_app. simpl.
    rewrite Hinv. reflexivity.
  - intros e He. unfold EconomicAgent.add_reward, bind, lift.
    rewrite He. reflexivity.
Qed.

(** A transaction without symbol or without amount is only logged: the
    history gains it and no balance moves. *)
Theorem record_without_symbol_or_amount (tx : dict) (p : Portfolio.t) :
  dict_mem tx (VStr "symbol") = false \/ dict_mem tx (VStr "amount") = false ->
  Portfolio.record_transaction tx p
  = (Ok tt, Portfolio.append_history (VDict tx) p).
Proof.
  intros H. unfold Portfolio.record_transaction, bind, get, put, ret.
  assert (E : dict_mem tx (VStr "symbol") && dict_mem tx (VStr "amount") = false).
  { destruct H as [-> | ->]; [reflexivity | apply andb_false_r]. }
  rewrite E. reflexivity.
Qed.

(** Recording is not atomic: when [record_transaction] raises (an amount
    [float()] refuses, an unhashable symbol, a balance that is no number),
    the entry is already in the history and the balances are as before. *)
Theorem failed_record_keeps_entry (tx : dict) (p p' : Portfolio.t) (e : exn) :
  Portfolio.record_transaction tx p = (Raise e, p') ->
  p' = Portfolio.append_history (VDict tx) p.
Proof.
  unfold Portfolio.record_transaction, Portfolio.adjust_token_balance,
    bind, get, put, lift, ret.
  destruct (dict_mem tx (VStr "symbol") && dict_mem tx (VStr "amount"));
    [| discriminate].
  destruct (Portfolio.py_float _); [| intros E; injection E as _ <-; reflexivity].
  destruct (Portfolio.get_token_balance _ _);
    [| intros E; injection E as _ <-; reflexivity].
  destruct (py_add_num _ _); [discriminate |].
  intros E; injection E as _ <-; reflexivity.
Qed.

Lemma record_moves_balance (tx : dict) (p : Portfolio.t) (s : string)
    (v balance : pyval) (b : number) (fa fb : F) :
  dict_get tx (VStr "symbol") = Some (VStr s) ->
  dict_get tx (VStr "amount") = Some v ->
  Portfolio.py_float v = Ok fa ->
  Portfolio.get_token_balance p (VStr s) = Ok balance ->
  as_number balance = Some b ->
  num_float b = Ok fb ->
  exists p',
    Portfolio.record_transaction tx p = (Ok tt, p') /\
    Portfolio.get_token_balance p' (VStr s) = Ok (VFloat (fadd fb fa)) /\
    forall s', s' <> s ->
      Portfolio.get_token_balance p' (VStr s')
      = Portfolio.get_token_balance p (VStr s').
Proof.
  intros Hs Hv Hfa Hbal Hb Hfb.
  unfold Portfolio.record_transaction, Portfolio.adjust_token_balance,
    bind, get, put, lift, ret, dict_mem, get_or.
  rewrite Hs, Hv. cbn [andb]. cbv beta iota. rewrite Hfa.
  assert (Hbal' :
    Portfolio.get_token_balance (Portfolio.append_history (VDict tx) p) (VStr s)
    = Ok balance) by exact Hbal.
  rewrite Hbal'. unfold py_add_num. rewrite Hb.
  assert (Hadd : num_add b (NFloat fa) = Ok (NFloat (fadd fb fa))).
  { unfold num_add. destruct b; rewrite Hfb; reflexivity. }
  rewrite Hadd. eexists. split; [reflexivity |].
  unfold Portfolio.get_token_balance; simpl. split.
  - rewrite dict_get_set_same. reflexivity.
  - intros s' Hne. rewrite dict_get_set_str.
    destruct (key_eqb (VStr s) (VStr s')) eqn:E; [| reflexivity].
    apply key_eqb_str_l in E. injection E as ->. contradiction Hne; reflexivity.
Qed.

(** A recorded transaction moves the balance of its own symbol by its
    amount and of no other symbol. *)
Theorem record_touches_one_symbol (tx : dict) (p : Portfolio.t) (s : string)
    (v balance : pyval) (b : number) (fa fb : F) :
  dict_get tx (VStr "symbol") = Some (VStr s) ->
  dict_get tx (VStr "amount") = Some v ->
  Portfolio.py_float v = Ok fa ->
  Portfolio.get_token_balance p (VStr s) = Ok balance ->
  as_number balance = Some b ->
  num_float b = Ok fb ->
  exists p',
    Portfolio.record_transaction tx p = (Ok tt, p') /\
    Portfolio.get_token_balance p' (VStr s) = Ok (VFloat (fadd fb fa)) /\
    forall s', s' <> s ->
      Portfolio.get_token_balance p' (VStr s')
      = Portfolio.get_token_balance p (VStr s').
Proof. exact (record_moves_balance tx p s v balance b fa fb). Qed.

Lemma sum_after_raise (items : list (result pyval)) (e : exn) :
  fold_left
    (fun acc item =>
       let? total := acc in
       let? x := item in
       num_add_py total x)
    items (Raise e)
  = Raise e.
Proof. induction items as [| item items IH]; simpl; [reflexivity | exact IH]. Qed.

(** The valuation of a portfolio without balances is the int [0] whatever
    the price feed is, even a value that is no mapping; with at least one
    balance, a feed that is true and no mapping raises AttributeError. *)
Theorem total_value_of_odd_feeds (p : Portfolio.t)
    (price_feeds default_price : option pyval) :
  (Portfolio.token_balances p = [] ->
   Portfolio.get_total_value p price_feeds default_price = Ok (VInt 0)) /\
  (forall feed,
     Portfolio.token_balances p <> [] ->
     price_feeds = Some feed ->
     truthy feed = true ->
     (forall d, feed <> VDict d) ->
     Portfolio.get_total_value p price_feeds default_price
     = Raise (Exn AttributeError
                ("'" ++ type_name feed ++ "' object has no attribute 'get'"))).
Proof.
  split.
  - intros E. unfold Portfolio.get_total_value. rewrite E. reflexivity.
  - intros feed Hne -> Htruthy Hnot.
    unfold Portfolio.get_total_value, Portfolio.py_sum. rewrite Htruthy.
    cbn [negb]. cbv iota.
    destruct (Portfolio.token_balances p) as [| [k b] rest];
      [contradiction Hne; reflexivity |].
    destruct feed; try (cbn [map fold_left rbind]; rewrite sum_after_raise; reflexivity).
    exfalso. eapply Hnot. reflexivity.
Qed.

(** [ensure_valid_wallet] fills an empty wallet once: a wallet that has a
    key is returned as it is without drawing a key pair, and after one
    call a second call changes nothing. *)
Theorem ensure_valid_wallet_once (w : AgentWallet.t) (n : nat) :
  (forall key, AgentWallet.private_key w = Some key -> key <> EmptyString ->
               AgentWallet.ensure_valid_wallet w n = (Ok w, n)) /\
  exists w1 n1,
    AgentWallet.ensure_valid_wallet w n = (Ok w1, n1) /\
    AgentWallet.ensure_valid_wallet w1 n1 = (Ok w1, n1) /\
    AgentWallet.chain w1 = AgentWallet.chain w /\
    exists key, AgentWallet.private_key w1 = Some key /\ key <> EmptyString.
Proof.
  assert (Hkeep : forall w0 m key,
            AgentWallet.private_key w0 = Some key -> key <> EmptyString ->
            AgentWallet.ensure_valid_wallet w0 m = (Ok w0, m)).
  { intros w0 m key Hk Hne. unfold AgentWallet.ensure_valid_wallet.
    rewrite Hk. simpl. apply String.eqb_neq in Hne. rewrite Hne. reflexivity. }
  split; [apply Hkeep |].
  destruct (AgentWallet.private_key w) as [key |] eqn:Hk.
  - destruct (String.eqb_spec key EmptyString) as [-> | Hne].
    + unfold AgentWallet.ensure_valid_wallet at 1. rewrite Hk. simpl.
      do 2 eexists. split; [reflexivity |].
      split; [| split; [reflexivity |]].
      * eapply Hkeep; [reflexivity | apply account_key_nonempty].
      * eexists. split; [reflexivity | apply account_key_nonempty].
    + exists w, n. split; [eapply Hkeep; eassumption |].
      split; [eapply Hkeep; eassumption |]. split; [reflexivity |].
      exists key. split; assumption.
  - unfold AgentWallet.ensure_valid_wallet at 1. rewrite Hk. simpl.
    do 2 eexists. split; [reflexivity |].
    split; [| split; [reflexivity |]].
    + eapply Hkeep; [reflexivity | apply account_key_nonempty].
    + eexists. split; [reflexivity | apply account_key_nonempty].
Qed.

End LedgerFacts.

Section AgentFacts.
Context {PF : PyFloat} {HO : Host}.

(** An agent built without a wallet has no holdings either (initial
    holdings given to the constructor are dropped): it ignores
    transactions, answers 0.0 to every balance and valuation query, signs
    with the empty mapping, and the module's [sign_transaction] on it
    answers the sign-failure envelope. *)
Theorem agent_without_wallet (initial_holdings : option (list (string * F)))
    (n : nat) :
  exists a,
    EconomicAgent.init false initial_holdings n = (Ok a, S n) /\
    EconomicAgent.wallet a = None /\
    EconomicAgent.holdings a = None /\
    (forall tx, EconomicAgent.add_transaction tx a = (Ok tt, a)) /\
    (forall symbol, EconomicAgent.get_token_balance a symbol = Ok (VFloat fzero)) /\
    (forall price_feeds default_price,
        EconomicAgent.get_portfolio_value a price_feeds default_price
        = Ok (VFloat fzero)) /\
    (forall tx_data, EconomicAgent.sign_transaction a tx_data = Ok []) /\
    (forall d c tx_data,
        fst (EconomicAgentModule.sign_transaction tx_data
               {| EconomicAgentModule.deployment := d;
                  EconomicAgentModule.consumer_id := c;
                  EconomicAgentModule.agent := Some a |})
        = Ok EconomicAgentModule.sign_failure).
Proof. eexists. repeat split. Qed.

Lemma mk_is_seed (items : list (string * pyval)) (balances : dict) :
  fold_left (fun d kv => dict_set d (VStr (fst kv)) (snd kv)) items balances
  = seed (VDict (map pair_entry items)) balances.
Proof.
  revert balances. induction items as [| kv items IH]; intros balances; simpl.
  - reflexivity.
  - rewrite IH. reflexivity.
Qed.

Lemma NoDup_map_VStr (l : list string) : NoDup l -> NoDup (map VStr l).
Proof.
  induction 1 as [| x l Hnotin Hnd IH]; simpl; constructor; [| exact IH].
  rewrite in_map_iff. intros (y & E & Hin). injection E as ->. contradiction.
Qed.

(** Initial holdings given to the constructor (with a wallet) are the
    balances of the new agent, entry by entry, and its history is empty. *)
Theorem init_seeds_balances (holdings : list (string * F)) (n : nat)
    (s : string) (v : F) :
  NoDup (map fst holdings) ->
  In (s, v) holdings ->
  exists a p,
    EconomicAgent.init true (Some holdings) n = (Ok a, S (S n)) /\
    EconomicAgent.holdings a = Some p /\
    Portfolio.transaction_history p = [] /\
    EconomicAgent.get_token_balance a (VStr s) = Ok (VFloat v).
Proof.
  intros Hnd Hin.
  unfold EconomicAgent.init, AgentWallet.ensure_valid_wallet, bind, draw, ret.
  cbn -[mk].
  do 2 eexists. split; [reflexivity |].
  split; [reflexivity |]. split; [reflexivity |].
  unfold EconomicAgent.get_token_balance, Portfolio.get_token_balance.
  cbn -[mk].
  unfold mk. rewrite mk_is_seed.
  rewrite (seed_get _ s (VFloat v)); [reflexivity | |].
  - rewrite !map_map. simpl.
    rewrite <- (map_map fst VStr).
    apply NoDup_map_VStr. exact Hnd.
  - rewrite map_map.
    apply (in_map (fun x => pair_entry (fst x, VFloat (snd x))) holdings (s, v)).
    exact Hin.
Qed.

End AgentFacts.

(** ** Further properties of the dispatcher *)

Section DispatcherFacts.
Context {PF : PyFloat} {HO : Host}.

Lemma served_refl (m : EconomicAgentModule.t) (a : EconomicAgent.t)
    (p : Portfolio.t) :
  EconomicAgentModule.agent m = Some a ->
  EconomicAgent.holdings a = Some p ->
  served m m.
Proof.
  intros Ha Hp. exists a, p, p. repeat split; try assumption.
  - destruct m as [dm cm am]; simpl in Ha; subst am.
    destruct a as [ia ra ta wa ha]; simpl in Hp; subst ha. reflexivity.
  - left; reflexivity.
Qed.

Lemma create_served (initial_holdings : pyval) (m : EconomicAgentModule.t)
    (a : EconomicAgent.t) (p : Portfolio.t) :
  EconomicAgentModule.agent m = Some a ->
  EconomicAgent.holdings a = Some p ->
  served m (snd (EconomicAgentModule.create initial_holdings m)).
Proof.
  intros Ha Hp.
  unfold EconomicAgentModule.create, EconomicAgentModule.the_agent,
    bind, ret, get, put, lift.
  destruct (truthy initial_holdings); rewrite Ha;
    [| exact (served_refl m a p Ha Hp)].
  rewrite Hp.
  destruct (dict_update (Portfolio.token_balances p) initial_holdings) as [r b].
  destruct r; simpl; exists a, p, (Portfolio.set_token_balances b p);
    repeat split; try assumption; left; reflexivity.
Qed.

Lemma add_transaction_served (tx : pyval) (m : EconomicAgentModule.t)
    (a : EconomicAgent.t) (p : Portfolio.t) :
  EconomicAgentModule.agent m = Some a ->
  EconomicAgent.holdings a = Some p ->
  served m (snd (EconomicAgentModule.add_transaction tx m)).
Proof.
  intros Ha Hp.
  pose proof (served_refl m a p Ha Hp) as Hsame.
  assert (Hrecord : forall d,
            served m (EconomicAgentModule.set_agent
                        (snd (EconomicAgent.add_transaction d a)) m)).
  { intros d. unfold EconomicAgent.add_transaction. rewrite Hp.
    pose proof (record_transaction_appends d p) as Happ.
    destruct (Portfolio.record_transaction d p) as [r p']. simpl in Happ |- *.
    exists a, p, p'. repeat split; try assumption.
    right. exists (VDict d). exact Happ. }
  unfold EconomicAgentModule.add_transaction. rewrite Ha.
  destruct tx as [| b | z | f | s | l | d]; try exact Hsame.
  specialize (Hrecord d).
  destruct (EconomicAgent.add_transaction d a) as [r a'].
  simpl snd in Hrecord.
  repeat match goal with
         | |- served m (snd (if ?c then _ else _)) => destruct c
         | |- served m (snd (match ?c with _ => _ end)) => destruct c
         | |- served m (snd (_, _)) => simpl snd
         end; assumption.
Qed.

Lemma call_served (method : attribute) (arg : pyval) (m : EconomicAgentModule.t)
    (a : EconomicAgent.t) (p : Portfolio.t) :
  EconomicAgentModule.agent m = Some a ->
  EconomicAgent.holdings a = Some p ->
  served m (snd (call method arg m)).
Proof.
  intros Ha Hp.
  pose proof (served_refl m a p Ha Hp) as Hsame.
  destruct method as [[| | | |] | s | c |]; simpl;
    try exact Hsame;
    try (eapply create_served; eassumption);
    try (eapply add_transaction_served; eassumption);
    unfold EconomicAgentModule.get_token_balance,
      EconomicAgentModule.get_portfolio_value,
      EconomicAgentModule.sign_transaction;
    rewrite Ha; exact Hsame.
Qed.

(** Whatever the request, serving it only replaces the holdings of the
    module's agent, and the history gains at most one entry. *)
Lemma dispatch_served (f : string) (data : pyval) (m : EconomicAgentModule.t)
    (a : EconomicAgent.t) (p : Portfolio.t) :
  EconomicAgentModule.agent m = Some a ->
  EconomicAgent.holdings a = Some p ->
  served m (snd (dispatch f data m)).
Proof.
  intros Ha Hp.
  pose proof (served_refl m a p Ha Hp) as Hsame.
  unfold dispatch, bind, get, lift, ret.
  destruct (getattr m f) as [method | e]; [| exact Hsame].
  destruct (attr_truthy method); cbn [negb]; cbv beta iota; [| exact Hsame].
  destruct (f =? "create")%string.
  { destruct (py_get _ "initial_holdings" VNone); [| exact Hsame].
    eapply create_served; eassumption. }
  destruct (f =? "add_transaction")%string.
  { eapply add_transaction_served; eassumption. }
  destruct (f =? "get_token_balance")%string.
  { destruct (py_get _ "symbol" VNone); [| exact Hsame].
    unfold EconomicAgentModule.get_token_balance. cbv beta. rewrite Ha. exact Hsame. }
  destruct (f =? "get_portfolio_value")%string.
  { destruct (py_get _ "price_feeds" VNone); [| exact Hsame].
    destruct (py_get _ "default_price" (VFloat fzero)); [| exact Hsame].
    destruct (Portfolio.py_float _); [| exact Hsame].
    unfold EconomicAgentModule.get_portfolio_value. cbv beta. rewrite Ha. exact Hsame. }
  eapply call_served; eassumption.
Qed.

(** Over any request the caller's module keeps its consumer id and
    deployment, and its agent keeps its id, wallet and rewards: only the
    holdings can change. *)
Theorem agent_identity_is_stable (st : RunState) (key : string)
    (d : AgentDeployment) (f : string) (data : pyval) :
  (forall m, agents_get (_agents st) key = Some m -> module_ok m) ->
  plain_name f = true ->
  exists a m' a',
    EconomicAgentModule.agent (module_for st key d) = Some a /\
    agents_get (_agents (snd (run (Accepted key d f data) st))) key = Some m' /\
    EconomicAgentModule.agent m' = Some a' /\
    EconomicAgentModule.consumer_id m'
    = EconomicAgentModule.consumer_id (module_for st key d) /\
    EconomicAgentModule.deployment m'
    = EconomicAgentModule.deployment (module_for st key d) /\
    EconomicAgent.id a' = EconomicAgent.id a /\
    EconomicAgent.wallet a' = EconomicAgent.wallet a /\
    EconomicAgent.rewards a' = EconomicAgent.rewards a /\
    EconomicAgent.total_reward a' = EconomicAgent.total_reward a.
Proof.
  intros Hok _.
  pose proof (module_for_ok st key d Hok) as (a & w & p & addr & k & Ha & Hw & Hp & _).
  destruct (dispatch_served f data _ a p Ha Hp)
    as (a0 & p0 & p' & Ha0 & Hp0 & Hm' & _).
  rewrite Ha in Ha0. injection Ha0 as <-.
  destruct (run_accepted st key d f data) as (st' & Hrun & Hget).
  rewrite Hrun. simpl snd. specialize (Hget key).
  rewrite String.eqb_refl, Hm' in Hget.
  exists a. do 2 eexists. split; [exact Ha |]. split; [exact Hget |].
  repeat split.
Qed.

(** The history of a caller is append-only: over any request it stays as
    it is or gains one entry at its end. *)
Theorem history_is_append_only (st : RunState) (key : string)
    (d : AgentDeployment) (f : string) (data : pyval) :
  (forall m, agents_get (_agents st) key = Some m -> module_ok m) ->
  plain_name f = true ->
  grown_by_at_most_one (history_of st key)
    (history_of (snd (run (Accepted key d f data) st)) key).
Proof.
  intros Hok _.
  pose proof (module_for_ok st key d Hok) as (a & w & p & addr & k & Ha & Hw & Hp & _).
  assert (Hhist : history_of st key = Portfolio.transaction_history p).
  { unfold history_of, module_for in *.
    destruct (agents_get (_agents st) key) as [m |].
    - rewrite Ha, Hp. reflexivity.
    - simpl in Ha. injection Ha as <-. simpl in Hp. injection Hp as <-. reflexivity. }
  destruct (dispatch_served f data _ a p Ha Hp)
    as (a0 & p0 & p' & Ha0 & Hp0 & Hm' & Hgrow).
  rewrite Ha in Ha0. injection Ha0 as <-.
  rewrite Hp in Hp0. injection Hp0 as <-.
  destruct (run_accepted st key d f data) as (st' & Hrun & Hget).
  rewrite Hrun. simpl snd. specialize (Hget key).
  rewrite String.eqb_refl, Hm' in Hget.
  rewrite Hhist. unfold history_of at 1. rewrite Hget. exact Hgrow.
Qed.

(** A request of one caller leaves the module of every other caller, and
    so its balances and history, untouched. *)
Theorem other_callers_are_untouched (st : RunState) (key other : string)
    (d : AgentDeployment) (f : string) (data : pyval) :
  other <> key ->
  plain_name f = true ->
  agents_get (_agents (snd (run (Accepted key d f data) st))) other
  = agents_get (_agents st) other /\
  history_of (snd (run (Accepted key d f data) st)) other = history_of st other.
Proof.
  intros Hne _.
  destruct (run_accepted st key d f data) as (st' & Hrun & Hget).
  rewrite Hrun. simpl snd. specialize (Hget other).
  assert (E : (key =? other)%string = false).
  { apply String.eqb_neq. intros E. apply Hne. symmetry. exact E. }
  rewrite E in Hget. split; [exact Hget |].
  unfold history_of. rewrite Hget. reflexivity.
Qed.

(** The three queries of a registered caller change nothing at all: the
    whole state after the request is the state before it. *)
Theorem queries_change_nothing (st : RunState) (key : string)
    (d : AgentDeployment) (f : string) (data : pyval)
    (m : EconomicAgentModule.t) :
  agents_get (_agents st) key = Some m ->
  f = "get_token_balance" \/ f = "get_portfolio_value" \/ f = "sign_transaction" ->
  snd (run (Accepted key d f data) st) = st.
Proof.
  intros Hm Hf.
  assert (Hsame : snd (dispatch f data m) = m).
  { destruct Hf as [-> | [-> | ->]].
    - rewrite dispatch_get_token_balance.
      destruct (py_get _ "symbol" VNone); [| reflexivity].
      unfold EconomicAgentModule.get_token_balance.
      destruct (EconomicAgentModule.agent m); reflexivity.
    - change (dispatch "get_portfolio_value" data m)
        with (let func_input := if truthy data then data else VDict [] in
              match py_get func_input "price_feeds" VNone with
              | Ok price_feeds =>
                  match py_get func_input "default_price" (VFloat fzero) with
                  | Ok default_price =>
                      match Portfolio.py_float default_price with
                      | Ok default_price =>
                          EconomicAgentModule.get_portfolio_value
                            price_feeds (VFloat default_price) m
                      | Raise e => (Raise e, m)
                      end
                  | Raise e => (Raise e, m)
                  end
              | Raise e => (Raise e, m)
              end).
      cbv zeta.
      destruct (py_get _ "price_feeds" VNone); [| reflexivity].
      destruct (py_get _ "default_price" (VFloat fzero)); [| reflexivity].
      destruct (Portfolio.py_float _); [| reflexivity].
      unfold EconomicAgentModule.get_portfolio_value.
      destruct (EconomicAgentModule.agent m); reflexivity.
    - change (dispatch "sign_transaction" data m)
        with (EconomicAgentModule.sign_transaction
                (if truthy data then data else VDict []) m).
      unfold EconomicAgentModule.sign_transaction.
      destruct (EconomicAgentModule.agent m); reflexivity. }
  unfold run. rewrite Hm.
  destruct (dispatch f data m) as [r m'] eqn:E. simpl in Hsame. subst m'.
  simpl snd. rewrite agents_set_same by exact Hm. destruct st; reflexivity.
Qed.

(** A signing that succeeds is answered with status ["signed"], never
    ["success"]: the signed record's own status overwrites the one the
    envelope starts with.  The envelope also carries the flag and the
    formatted transaction. *)
Theorem signed_envelope_status (m : EconomicAgentModule.t) (tx_data : pyval)
    (envelope : dict) :
  module_ok m ->
  fst (EconomicAgentModule.sign_transaction tx_data m) = Ok envelope ->
  status envelope = Some (VStr "signed") /\
  dict_get envelope (VStr "signed") = Some (VBool true) /\
  dict_get envelope (VStr "network") = Some (VStr "ethereum") /\
  exists body, dict_get envelope (VStr "tx_data") = Some (VDict body).
Proof.
  intros (a & w & p & addr & k & Ha & Hw & _).
  unfold EconomicAgentModule.sign_transaction, EconomicAgent.sign_transaction,
    AgentWallet.sign_transaction.
  rewrite Ha, Hw.
  destruct (AgentWallet.format_transaction w tx_data) as [body | e]; simpl;
    [| discriminate].
  intros E. injection E as <-.
  repeat split. eexists. reflexivity.
Qed.

End DispatcherFacts.

Section TransactionEdges.
Context {PF : PyFloat} {HO : Host}.

Lemma in_strs_present (d : dict) (k : string) (l : list string) :
  in_strs (get_or d k VNone) l = true -> dict_mem d (VStr k) = true.
Proof.
  unfold get_or, dict_mem. destruct (dict_get d (VStr k)); [reflexivity |].
  discriminate.
Qed.

Lemma in_strs_credit (v : pyval) :
  in_strs v ["reward"; "deposit"] = true ->
  in_strs v ["withdraw"; "reward"; "deposit"; "trade"] = true /\
  in_strs v ["withdraw"; "trade"] = false.
Proof.
  destruct v; simpl; try discriminate.
  destruct (String.eqb_spec s "reward") as [-> | _]; [split; reflexivity |].
  destruct (String.eqb_spec s "deposit") as [-> | _]; [split; reflexivity |].
  discriminate.
Qed.

(** A deposit or reward with its three keys whose amount [float()] refuses
    is answered with an error envelope carrying the exception's message,
    and yet it is logged: the caller's history has gained the transaction,
    its balances are as before. *)
Theorem unreadable_amount_is_logged (st : RunState) (key : string)
    (d : AgentDeployment) (tx : dict) (m : EconomicAgentModule.t)
    (a : EconomicAgent.t) (p : Portfolio.t) (e : exn) :
  agents_get (_agents st) key = Some m ->
  EconomicAgentModule.agent m = Some a ->
  EconomicAgent.holdings a = Some p ->
  in_strs (get_or tx "type" VNone) ["reward"; "deposit"] = true ->
  dict_mem tx (VStr "symbol") = true ->
  dict_mem tx (VStr "amount") = true ->
  Portfolio.py_float (get_or tx "amount" VNone) = Raise e ->
  let r := run (Accepted key d "add_transaction" (VDict tx)) st in
  fst r = error_envelope e /\
  agents_get (_agents (snd r)) key
  = Some (EconomicAgentModule.set_agent
            (EconomicAgent.set_holdings
               (Some (Portfolio.append_history (VDict tx) p)) a) m) /\
  history_of (snd r) key = (history_of st key ++ [VDict tx])%list.
Proof.
  intros Hm Ha Hp Hty Hs Hv Hf r.
  destruct (in_strs_credit _ Hty) as [Hknown Hnot].
  pose proof (in_strs_present _ _ _ Hty) as Htype.
  assert (Htruthy : truthy (VDict tx) = true).
  { destruct tx; [discriminate Hs | reflexivity]. }
  assert (Hcall :
    EconomicAgentModule.add_transaction (VDict tx) m
    = (Raise e,
       EconomicAgentModule.set_agent
         (EconomicAgent.set_holdings
            (Some (Portfolio.append_history (VDict tx) p)) a) m)).
  { unfold EconomicAgentModule.add_transaction, EconomicAgentModule.has_required_keys.
    rewrite Ha, Htruthy. cbn [forallb]. rewrite Htype, Hs, Hv, Hknown, Hnot.
    cbn [negb andb orb]. cbv iota.
    unfold EconomicAgent.add_transaction. rewrite Hp.
    unfold Portfolio.record_transaction, bind, get, put, lift.
    rewrite Hs, Hv. cbn [andb]. cbv beta iota. rewrite Hf. reflexivity. }
  destruct (run_accepted st key d "add_transaction" (VDict tx))
    as (st' & Hrun & Hget).
  unfold module_for in Hrun, Hget. rewrite Hm in Hrun, Hget.
  rewrite dispatch_add_transaction, Htruthy, Hcall in Hrun, Hget.
  specialize (Hget key). rewrite String.eqb_refl in Hget. simpl snd in Hget.
  subst r. rewrite Hrun. simpl fst. simpl snd.
  split; [reflexivity |]. split; [exact Hget |].
  unfold history_of. rewrite Hget, Hm, Ha, Hp. reflexivity.
Qed.

(** A withdraw or trade whose amount is no number is refused by the sign
    test itself, a TypeError, before anything is recorded: the module is
    unchanged. *)
Theorem unreadable_amount_of_withdraw_is_refused (m : EconomicAgentModule.t)
    (a : EconomicAgent.t) (tx : dict) :
  EconomicAgentModule.agent m = Some a ->
  in_strs (get_or tx "type" VNone) ["withdraw"; "trade"] = true ->
  dict_mem tx (VStr "symbol") = true ->
  dict_mem tx (VStr "amount") = true ->
  as_number (get_or tx "amount" VNone) = None ->
  EconomicAgentModule.add_transaction (VDict tx) m
  = (Raise (Exn TypeError
              ("'<' not supported between instances of '"
                 ++ type_name (get_or tx "amount" VNone) ++ "' and 'int'")),
     m).
Proof.
  intros Ha Hty Hs Hv Hn.
  pose proof (in_strs_present _ _ _ Hty) as Htype.
  assert (Htruthy : truthy (VDict tx) = true).
  { destruct tx; [discriminate Hs | reflexivity]. }
  unfold EconomicAgentModule.add_transaction, EconomicAgentModule.has_required_keys.
  rewrite Ha, Htruthy. cbn [forallb]. rewrite Htype, Hs, Hv.
  rewrite (in_strs_known _ Hty), Hty.
  cbn [negb andb orb]. cbv iota.
  rewrite (get_or_present tx "amount" (VInt 0) VNone Hv).
  unfold py_lt_num. rewrite Hn. reflexivity.
Qed.

(** A withdraw or trade of a negative amount that the balance covers is
    recorded: the envelope is a success echoing the transaction, the
    history gains it, and the balance of its symbol becomes balance plus
    amount. *)
Theorem covered_withdraw_is_recorded
    (m : EconomicAgentModule.t) (a : EconomicAgent.t) (p : Portfolio.t)
    (tx : dict) (s : string) (v balance : pyval) (n b : number) (fa fb : F) :
  EconomicAgentModule.agent m = Some a ->
  EconomicAgent.holdings a = Some p ->
  in_strs (get_or tx "type" VNone) ["withdraw"; "trade"] = true ->
  dict_get tx (VStr "symbol") = Some (VStr s) ->
  dict_get tx (VStr "amount") = Some v ->
  as_number v = Some n ->
  num_lt n (NInt 0) = true ->
  num_float n = Ok fa ->
  Portfolio.get_token_balance p (VStr s) = Ok balance ->
  as_number balance = Some b ->
  num_lt b (num_abs n) = false ->
  num_float b = Ok fb ->
  exists p',
    EconomicAgentModule.add_transaction (VDict tx) m
    = (Ok (mk [("status", VStr "success"); ("transaction", VDict tx)]),
       EconomicAgentModule.set_agent (EconomicAgent.set_holdings (Some p') a) m) /\
    Portfolio.transaction_history p'
    = (Portfolio.transaction_history p ++ [VDict tx])%list /\
    Portfolio.get_token_balance p' (VStr s) = Ok (VFloat (fadd fb fa)).
Proof.
  intros Ha Hp Hty Hs Hv Hn Hneg Hfa Hbal Hb Hcov Hfb.
  pose proof (in_strs_present _ _ _ Hty) as Htype.
  assert (Htruthy : truthy (VDict tx) = true).
  { destruct tx; [discriminate Hs | reflexivity]. }
  assert (Hf : Portfolio.py_float v = Ok fa).
  { unfold Portfolio.py_float. rewrite Hn. exact Hfa. }
  destruct (record_moves_balance tx p s v balance b fa fb
              Hs Hv Hf Hbal Hb Hfb) as (p' & Hrec & Hnew & _).
  exists p'. split; [| split; [| exact Hnew]].
  - unfold EconomicAgentModule.add_transaction, EconomicAgentModule.has_required_keys.
    rewrite Ha, Htruthy. cbn [forallb]. unfold dict_mem at 1 2 3.
    unfold dict_mem in Htype. rewrite Hs, Hv.
    destruct (dict_get tx (VStr "type")); [| discriminate Htype].
    rewrite (in_strs_known _ Hty), Hty.
    cbn [negb andb orb]. cbv iota.
    unfold get_or at 1. rewrite Hv.
    unfold py_lt_num at 1. rewrite Hn, Hneg.
    unfold get_or at 1 2. rewrite Hs, Hv.
    unfold py_abs. rewrite Hn. cbn [rbind].
    unfold EconomicAgent.get_token_balance. rewrite Hp, Hbal. cbn [rbind].
    unfold py_lt_num. rewrite Hb, Hcov. cbn [rbind].
    unfold EconomicAgent.add_transaction. rewrite Hp, Hrec. reflexivity.
  - pose proof (record_transaction_appends tx p) as Happ.
    rewrite Hrec in Happ. exact Happ.
Qed.

End TransactionEdges.

Section CreateEdges.
Context {PF : PyFloat} {HO : Host}.

Lemma update_seq_pairs (good : list (string * pyval)) (i : nat) (d : dict) :
  update_seq i (map pair_item good) d
  = (Ok tt, seed (VDict (map pair_entry good)) d).
Proof.
  revert i d. induction good as [| kv good IH]; intros i d; simpl.
  - reflexivity.
  - rewrite IH. reflexivity.
Qed.

Lemma update_seq_partial (good : list (string * pyval)) (bad : pyval)
    (rest : list pyval) (i : nat) (d : dict) (e : exn) :
  update_pair (i + List.length good) bad = Raise e ->
  update_seq i (map pair_item good ++ bad :: rest) d
  = (Raise e, seed (VDict (map pair_entry good)) d).
Proof.
  revert i d. induction good as [| kv good IH]; intros i d Hbad; simpl.
  - rewrite Nat.add_0_r in Hbad. rewrite Hbad. reflexivity.
  - apply IH. simpl in Hbad. rewrite Nat.add_succ_r in Hbad. exact Hbad.
Qed.

Lemma dict_update_pairs (pairs : list (string * pyval)) (d : dict) :
  dict_update d (VList (map pair_item pairs))
  = dict_update d (VDict (map pair_entry pairs)).
Proof.
  unfold dict_update. cbn [py_iter]. rewrite update_seq_pairs. reflexivity.
Qed.

(** [create] takes a list of [[symbol, amount]] pairs for the mapping of
    those pairs: same envelope, same balances. *)
Theorem create_from_pairs (m : EconomicAgentModule.t) (a : EconomicAgent.t)
    (p : Portfolio.t) (pairs : list (string * pyval)) :
  EconomicAgentModule.agent m = Some a ->
  EconomicAgent.holdings a = Some p ->
  EconomicAgentModule.create (VList (map pair_item pairs)) m
  = EconomicAgentModule.create (VDict (map pair_entry pairs)) m.
Proof.
  intros Ha Hp.
  assert (Htruthy : truthy (VList (map pair_item pairs))
                    = truthy (VDict (map pair_entry pairs))).
  { destruct pairs; reflexivity. }
  unfold EconomicAgentModule.create, EconomicAgentModule.the_agent,
    bind, ret, get, put, lift.
  rewrite Htruthy.
  destruct (truthy (VDict (map pair_entry pairs))); [| reflexivity].
  rewrite Ha, Hp, dict_update_pairs. reflexivity.
Qed.

(** A [create] whose list of pairs has a malformed element raises at that
    element and keeps what the pairs before it stored: the request fails
    and the balances have changed. *)
Theorem create_fails_half_way (m : EconomicAgentModule.t) (a : EconomicAgent.t)
    (p : Portfolio.t) (good : list (string * pyval)) (bad : pyval)
    (rest : list pyval) (e : exn) :
  EconomicAgentModule.agent m = Some a ->
  EconomicAgent.holdings a = Some p ->
  update_pair (List.length good) bad = Raise e ->
  EconomicAgentModule.create (VList (map pair_item good ++ bad :: rest)) m
  = (Raise e,
     EconomicAgentModule.set_agent
       (EconomicAgent.set_holdings
          (Some (Portfolio.set_token_balances
                   (seed (VDict (map pair_entry good)) (Portfolio.token_balances p))
                   p)) a) m).
Proof.
  intros Ha Hp Hbad.
  assert (Htruthy : truthy (VList (map pair_item good ++ bad :: rest)) = true).
  { destruct good; reflexivity. }
  unfold EconomicAgentModule.create, EconomicAgentModule.the_agent,
    bind, ret, get, put, lift.
  rewrite Htruthy, Ha, Hp.
  unfold dict_update. cbn [py_iter].
  rewrite (update_seq_partial good bad rest 0 _ e Hbad). reflexivity.
Qed.

Lemma dict_get_none (d : dict) : string_keys d -> dict_get d VNone = None.
Proof.
  induction d as [| [k v] d IH]; intros Hkeys; simpl; [reflexivity |].
  destruct (Hkeys k v (or_introl eq_refl)) as (s & ->). simpl.
  apply IH. intros k' v' Hin. apply (Hkeys k' v'). right. exact Hin.
Qed.

(** A balance query that names no symbol (no input data, no ["symbol"]
    key, or a null symbol) is a query for the key [None]: on balances keyed
    by strings it answers success, symbol [None], balance 0.0. *)
Theorem balance_query_without_symbol (m : EconomicAgentModule.t)
    (a : EconomicAgent.t) (p : Portfolio.t) (data : pyval) :
  EconomicAgentModule.agent m = Some a ->
  EconomicAgent.holdings a = Some p ->
  string_keys (Portfolio.token_balances p) ->
  py_get (if truthy data then data else VDict []) "symbol" VNone = Ok VNone ->
  dispatch "get_token_balance" data m
  = (Ok (mk [("status", VStr "success"); ("symbol", VNone);
             ("balance", VFloat fzero)]), m).
Proof.
  intros Ha Hp Hkeys Hsym.
  rewrite dispatch_get_token_balance, Hsym.
  unfold EconomicAgentModule.get_token_balance, EconomicAgent.get_token_balance,
    Portfolio.get_token_balance.
  rewrite Ha, Hp. cbn [hash_check rbind]. rewrite (dict_get_none _ Hkeys).
  reflexivity.
Qed.

(** A function name that the module object does not have (and that is no
    [__x__] name) is answered with an error envelope whose message carries
    the name; the caller is registered all the same, its module being the
    one that served the request, unchanged. *)
Theorem unknown_operation_is_named (st : RunState) (key : string)
    (d : AgentDeployment) (f : string) (data : pyval) :
  plain_name f = true ->
  known_attribute f = false ->
  (exists msg,
     fst (run (Accepted key d f data) st)
     = mk [("status", VStr "error"); ("message", VStr msg)] /\
     string_contains f msg = true) /\
  agents_get (_agents (snd (run (Accepted key d f data) st))) key
  = Some (module_for st key d).
Proof.
  intros Hplain Hf.
  split; [exact (unknown_name_is_named st key d f data Hplain Hf) |].
  destruct (run_accepted st key d f data) as (st' & Hrun & Hget).
  rewrite Hrun. simpl snd. rewrite Hget, String.eqb_refl.
  assert (Hattr : getattr (module_for st key d) f
            = Raise (Exn AttributeError
                       ("'EconomicAgentModule' object has no attribute '" ++ f ++ "'"))).
  { unfold known_attribute in Hf. simpl in Hf. unfold getattr.
    repeat match goal with
           | |- context [(f =? ?s)%string] =>
               destruct (f =? s)%string; [discriminate Hf |]
           end.
    reflexivity. }
  unfold dispatch, bind, get, lift. rewrite Hattr. reflexivity.
Qed.

End CreateEdges.

(** ** The further properties on concrete inputs *)

Lemma example_state_reachable : reachable example_state.
Proof. apply reachable_run; [apply reachable_initial | reflexivity]. Qed.

Lemma example_state_ok (m : EconomicAgentModule.t) :
  agents_get (_agents example_state) "user-1" = Some m -> module_ok m.
Proof. apply (reachable_registry_ok example_state example_state_reachable). Qed.

Lemma add_reward_keeps_total_witness :
  EconomicAgent.total_reward example_agent
  = rewards_sum (EconomicAgent.rewards example_agent) /\
  Portfolio.py_float (VFloat (flt 10)) = Ok (flt 10) /\
  exists a',
    EconomicAgent.add_reward (VFloat (flt 10)) example_agent = (Ok tt, a') /\
    EconomicAgent.rewards a' = (EconomicAgent.rewards example_agent ++ [flt 10])%list /\
    EconomicAgent.total_reward a' = rewards_sum (EconomicAgent.rewards a') /\
    EconomicAgent.id a' = EconomicAgent.id example_agent /\
    EconomicAgent.wallet a' = EconomicAgent.wallet example_agent /\
    EconomicAgent.holdings a' = EconomicAgent.holdings example_agent.
Proof.
  split; [reflexivity |]. split; [reflexivity |].
  exact (proj1 (add_reward_keeps_total (PF:=binary64) example_agent
                  (VFloat (flt 10)) eq_refl) (flt 10) eq_refl).
Defined.

Lemma record_without_symbol_or_amount_witness :
  (dict_mem [(sym "type", sym "deposit")] (VStr "symbol") = false \/
   dict_mem [(sym "type", sym "deposit")] (VStr "amount") = false) /\
  Portfolio.record_transaction [(sym "type", sym "deposit")] example_empty
  = (Ok tt, Portfolio.append_history (VDict [(sym "type", sym "deposit")])
              example_empty).
Proof.
  assert (H : dict_mem [(sym "type", sym "deposit")] (VStr "symbol") = false \/
              dict_mem [(sym "type", sym "deposit")] (VStr "amount") = false)
    by (left; reflexivity).
  split; [exact H |].
  exact (record_without_symbol_or_amount (PF:=binary64) _ example_empty H).
Defined.

Lemma failed_record_keeps_entry_witness :
  Portfolio.record_transaction example_null_deposit example_empty
  = (Raise null_amount_error,
     snd (Portfolio.record_transaction example_null_deposit example_empty)) /\
  snd (Portfolio.record_transaction example_null_deposit example_empty)
  = Portfolio.append_history (VDict example_null_deposit) example_empty.
Proof.
  assert (H : Portfolio.record_transaction example_null_deposit example_empty
              = (Raise null_amount_error,
                 snd (Portfolio.record_transaction example_null_deposit
                        example_empty)))
    by reflexivity.
  split; [exact H |].
  exact (failed_record_keeps_entry (PF:=binary64) _ _ _ _ H).
Defined.

Lemma record_touches_one_symbol_witness :
  Portfolio.get_token_balance example_seeded_holdings (VStr "ETH")
  = Ok (VFloat (flt 1)) /\
  exists p',
    Portfolio.record_transaction (example_tx "deposit" "ETH" 2%float)
      example_seeded_holdings = (Ok tt, p') /\
    Portfolio.get_token_balance p' (VStr "ETH")
    = Ok (VFloat (fadd (flt 1) (flt 2))) /\
    forall s', s' <> "ETH" ->
      Portfolio.get_token_balance p' (VStr s')
      = Portfolio.get_token_balance example_seeded_holdings (VStr s').
Proof.
  split; [reflexivity |].
  exact (record_touches_one_symbol (PF:=binary64)
           (example_tx "deposit" "ETH" 2%float) example_seeded_holdings "ETH"
           (VFloat (flt 2)) (VFloat (flt 1)) (NFloat (flt 1)) (flt 2) (flt 1)
           eq_refl eq_refl eq_refl eq_refl eq_refl eq_refl).
Defined.

Lemma total_value_of_odd_feeds_witness :
  Portfolio.token_balances example_holdings <> [] /\
  truthy (VStr "prices") = true /\
  Portfolio.get_total_value example_holdings (Some (VStr "prices")) None
  = Raise (Exn AttributeError "'str' object has no attribute 'get'").
Proof.
  assert (H : Portfolio.token_balances example_holdings <> []) by discriminate.
  split; [exact H |]. split; [reflexivity |].
  apply (proj2 (total_value_of_odd_feeds (PF:=binary64) example_holdings
                  (Some (VStr "prices")) None) (VStr "prices") H eq_refl eq_refl).
  intros d E. discriminate E.
Defined.

Lemma ensure_valid_wallet_once_witness :
  AgentWallet.private_key example_wallet
  = Some "0000000000000000000000000000000000000000000000000000000000000001" /\
  AgentWallet.ensure_valid_wallet example_wallet 0%nat = (Ok example_wallet, 0%nat).
Proof.
  split; [reflexivity |].
  apply (proj1 (ensure_valid_wallet_once (PF:=binary64) example_wallet 0%nat)
           "0000000000000000000000000000000000000000000000000000000000000001"
           eq_refl).
  discriminate.
Defined.

Lemma init_seeds_balances_witness :
  NoDup (map fst [("ETH", flt 1); ("USDC", flt 1000)]) /\
  In ("USDC", flt 1000) [("ETH", flt 1); ("USDC", flt 1000)] /\
  exists a p,
    EconomicAgent.init true (Some [("ETH", flt 1); ("USDC", flt 1000)]) 0%nat
    = (Ok a, 2%nat) /\
    EconomicAgent.holdings a = Some p /\
    Portfolio.transaction_history p = [] /\
    EconomicAgent.get_token_balance a (VStr "USDC") = Ok (VFloat (flt 1000)).
Proof.
  assert (Hnd : NoDup (map fst [("ETH", flt 1); ("USDC", flt 1000)])).
  { repeat constructor; simpl; intuition discriminate. }
  assert (Hin : In ("USDC", flt 1000) [("ETH", flt 1); ("USDC", flt 1000)])
    by (right; left; reflexivity).
  split; [exact Hnd |]. split; [exact Hin |].
  exact (init_seeds_balances (PF:=binary64) _ 0%nat "USDC" (flt 1000) Hnd Hin).
Defined.

Lemma agent_identity_is_stable_witness :
  plain_name "add_transaction" = true /\
  exists a m' a',
    EconomicAgentModule.agent (module_for example_state "user-1" example_deployment)
    = Some a /\
    agents_get
      (_agents (snd (run (Accepted "user-1" example_deployment "add_transaction"
                            (VDict (example_tx "deposit" "ETH" 2%float)))
                       example_state))) "user-1" = Some m' /\
    EconomicAgentModule.agent m' = Some a' /\
    EconomicAgentModule.consumer_id m'
    = EconomicAgentModule.consumer_id
        (module_for example_state "user-1" example_deployment) /\
    EconomicAgentModule.deployment m'
    = EconomicAgentModule.deployment
        (module_for example_state "user-1" example_deployment) /\
    EconomicAgent.id a' = EconomicAgent.id a /\
    EconomicAgent.wallet a' = EconomicAgent.wallet a /\
    EconomicAgent.rewards a' = EconomicAgent.rewards a /\
    EconomicAgent.total_reward a' = EconomicAgent.total_reward a.
Proof.
  split; [reflexivity |].
  exact (agent_identity_is_stable (PF:=binary64) example_state "user-1"
           example_deployment "add_transaction"
           (VDict (example_tx "deposit" "ETH" 2%float))
           example_state_ok eq_refl).
Defined.

Lemma history_is_append_only_witness :
  plain_name "add_transaction" = true /\
  grown_by_at_most_one (history_of example_state "user-1")
    (history_of
       (snd (run (Accepted "user-1" example_deployment "add_transaction"
                    (VDict (example_tx "deposit" "ETH" 2%float))) example_state))
       "user-1").
Proof.
  split; [reflexivity |].
  exact (history_is_append_only (PF:=binary64) example_state "user-1"
           example_deployment "add_transaction"
           (VDict (example_tx "deposit" "ETH" 2%float))
           example_state_ok eq_refl).
Defined.

Lemma other_callers_are_untouched_witness :
  "user-1" <> "user-2" /\
  plain_name "add_transaction" = true /\
  agents_get
    (_agents (snd (run (Accepted "user-2" example_deployment "add_transaction"
                          (VDict (example_tx "deposit" "ETH" 2%float)))
                     example_state))) "user-1"
  = agents_get (_agents example_state) "user-1" /\
  history_of
    (snd (run (Accepted "user-2" example_deployment "add_transaction"
                 (VDict (example_tx "deposit" "ETH" 2%float))) example_state))
    "user-1"
  = history_of example_state "user-1".
Proof.
  assert (H : "user-1" <> "user-2") by discriminate.
  split; [exact H |]. split; [reflexivity |].
  exact (other_callers_are_untouched (PF:=binary64) example_state "user-2" "user-1"
           example_deployment "add_transaction"
           (VDict (example_tx "deposit" "ETH" 2%float)) H eq_refl).
Defined.

Lemma queries_change_nothing_witness :
  agents_get (_agents example_state) "user-1" = Some example_seeded_module /\
  snd (run (Accepted "user-1" example_deployment "get_portfolio_value"
              (VDict [(sym "price_feeds", example_prices)])) example_state)
  = example_state.
Proof.
  split; [reflexivity |].
  apply (queries_change_nothing (PF:=binary64) example_state "user-1"
           example_deployment "get_portfolio_value"
           (VDict [(sym "price_feeds", example_prices)]) example_seeded_module
           eq_refl).
  right; left; reflexivity.
Defined.

Lemma signed_envelope_status_witness :
  module_ok example_module /\
  exists envelope,
    fst (EconomicAgentModule.sign_transaction (VDict [(sym "to", sym "0x12")])
           example_module) = Ok envelope /\
    status envelope = Some (VStr "signed") /\
    dict_get envelope (VStr "signed") = Some (VBool true) /\
    dict_get envelope (VStr "network") = Some (VStr "ethereum") /\
    exists body, dict_get envelope (VStr "tx_data") = Some (VDict body).
Proof.
  assert (H : module_ok example_module) by apply fresh_module_ok.
  split; [exact H |].
  eexists. split; [reflexivity |].
  exact (signed_envelope_status (PF:=binary64) example_module
           (VDict [(sym "to", sym "0x12")]) _ H eq_refl).
Defined.

Lemma unreadable_amount_is_logged_witness :
  agents_get (_agents example_state) "user-1" = Some example_seeded_module /\
  Portfolio.py_float (get_or example_null_deposit "amount" VNone)
  = Raise null_amount_error /\
  let r := run (Accepted "user-1" example_deployment "add_transaction"
                  (VDict example_null_deposit)) example_state in
  fst r = error_envelope null_amount_error /\
  agents_get (_agents (snd r)) "user-1"
  = Some (EconomicAgentModule.set_agent
            (EconomicAgent.set_holdings
               (Some (Portfolio.append_history (VDict example_null_deposit)
                        example_seeded_holdings)) example_seeded_agent)
            example_seeded_module) /\
  history_of (snd r) "user-1"
  = (history_of example_state "user-1" ++ [VDict example_null_deposit])%list.
Proof.
  split; [reflexivity |]. split; [reflexivity |].
  exact (unreadable_amount_is_logged (PF:=binary64) example_state "user-1"
           example_deployment example_null_deposit example_seeded_module
           example_seeded_agent example_seeded_holdings null_amount_error
           eq_refl eq_refl eq_refl eq_refl eq_refl eq_refl eq_refl).
Defined.

Lemma unreadable_amount_of_withdraw_is_refused_witness :
  as_number (get_or example_text_withdraw "amount" VNone) = None /\
  EconomicAgentModule.add_transaction (VDict example_text_withdraw)
    example_seeded_module
  = (Raise (Exn TypeError
              ("'<' not supported between instances of '"
                 ++ type_name (get_or example_text_withdraw "amount" VNone)
                 ++ "' and 'int'")),
     example_seeded_module).
Proof.
  split; [reflexivity |].
  exact (unreadable_amount_of_withdraw_is_refused (PF:=binary64)
           example_seeded_module example_seeded_agent example_text_withdraw
           eq_refl eq_refl eq_refl eq_refl eq_refl).
Defined.

Lemma covered_withdraw_is_recorded_witness :
  num_lt (NFloat (flt (-500))) (NInt 0) = true /\
  num_lt (NFloat (flt 1000)) (num_abs (NFloat (flt (-500)))) = false /\
  exists p',
    EconomicAgentModule.add_transaction
      (VDict (example_tx "withdraw" "USDC" (-500)%float)) example_seeded_module
    = (Ok (mk [("status", VStr "success");
               ("transaction", VDict (example_tx "withdraw" "USDC" (-500)%float))]),
       EconomicAgentModule.set_agent
         (EconomicAgent.set_holdings (Some p') example_seeded_agent)
         example_seeded_module) /\
    Portfolio.transaction_history p'
    = (Portfolio.transaction_history example_seeded_holdings
         ++ [VDict (example_tx "withdraw" "USDC" (-500)%float)])%list /\
    Portfolio.get_token_balance p' (VStr "USDC")
    = Ok (VFloat (fadd (flt 1000) (flt (-500)))).
Proof.
  split; [reflexivity |]. split; [reflexivity |].
  exact (covered_withdraw_is_recorded (PF:=binary64)
           example_seeded_module example_seeded_agent example_seeded_holdings
           (example_tx "withdraw" "USDC" (-500)%float) "USDC"
           (VFloat (flt (-500))) (VFloat (flt 1000))
           (NFloat (flt (-500))) (NFloat (flt 1000)) (flt (-500)) (flt 1000)
           eq_refl eq_refl eq_refl eq_refl eq_refl eq_refl eq_refl eq_refl
           eq_refl eq_refl eq_refl eq_refl).
Defined.

Lemma create_from_pairs_witness :
  EconomicAgent.holdings example_agent = Some example_empty /\
  EconomicAgentModule.create (VList (map pair_item example_pairs)) example_module
  = EconomicAgentModule.create (VDict (map pair_entry example_pairs)) example_module.
Proof.
  split; [reflexivity |].
  exact (create_from_pairs (PF:=binary64) example_module example_agent
           example_empty example_pairs eq_refl eq_refl).
Defined.

Lemma create_fails_half_way_witness :
  update_pair (List.length example_pairs) (VInt 7)
  = Raise (Exn TypeError
             "cannot convert dictionary update sequence element #2 to a sequence") /\
  EconomicAgentModule.create
    (VList (map pair_item example_pairs ++ [VInt 7; pair_item ("WBTC", VInt 1)]))
    example_module
  = (Raise (Exn TypeError
              "cannot convert dictionary update sequence element #2 to a sequence"),
     EconomicAgentModule.set_agent
       (EconomicAgent.set_holdings
          (Some (Portfolio.set_token_balances
                   (seed (VDict (map pair_entry example_pairs))
                      (Portfolio.token_balances example_empty))
                   example_empty)) example_agent) example_module).
Proof.
  split; [reflexivity |].
  exact (create_fails_half_way (PF:=binary64) example_module example_agent
           example_empty example_pairs (VInt 7) [pair_item ("WBTC", VInt 1)] _
           eq_refl eq_refl eq_refl).
Defined.

Lemma balance_query_without_symbol_witness :
  string_keys (Portfolio.token_balances example_seeded_holdings) /\
  dispatch "get_token_balance" VNone example_seeded_module
  = (Ok (mk [("status", VStr "success"); ("symbol", VNone);
             ("balance", VFloat fzero)]), example_seeded_module).
Proof.
  assert (H : string_keys (Portfolio.token_balances example_seeded_holdings)).
  { intros k v Hin. simpl in Hin.
    repeat (destruct Hin as [Hin | Hin];
            [injection Hin as <- _; eexists; reflexivity |]).
    destruct Hin. }
  split; [exact H |].
  exact (balance_query_without_symbol (PF:=binary64) example_seeded_module
           example_seeded_agent example_seeded_holdings VNone
           eq_refl eq_refl H eq_refl).
Defined.

Lemma unknown_operation_is_named_witness :
  plain_name "transfer" = true /\
  known_attribute "transfer" = false /\
  (exists msg,
     fst (run (Accepted "user-1" example_deployment "transfer" VNone) example_state)
     = mk [("status", VStr "error"); ("message", VStr msg)] /\
     string_contains "transfer" msg = true) /\
  agents_get
    (_agents (snd (run (Accepted "user-1" example_deployment "transfer" VNone)
                     example_state))) "user-1"
  = Some (module_for example_state "user-1" example_deployment).
Proof.
  split; [reflexivity |]. split; [reflexivity |].
  exact (unknown_operation_is_named (PF:=binary64) example_state "user-1"
           example_deployment "transfer" VNone eq_refl eq_refl).
Defined.
